(** * Frame lifecycle of the Vulkan engine (vk_engine.h, vk_engine.cpp)

    A shallow embedding of [DeletionQueue], [FrameData] and [VulkanEngine]
    ([init], [cleanup], [draw], [run] and their helpers).  The engine is a
    sequential program that talks to Vulkan, VMA, vk-bootstrap and SDL; the
    embedding threads the engine object, the global [loadedEngine] pointer
    and a [World] through a small state-and-abort monad.  The [World]
    holds the chronological log of the API calls made so far (with their
    out-parameters and return values), the state of the fences, the
    driver's answers to come and the pending window events. *)

From Stdlib Require Import ZArith String.
From stdpp Require Import base numbers list gmap.

Local Open Scope Z_scope.

(** ** Vulkan values *)

(** Vulkan, VMA and SDL objects are opaque handles. *)
Abbreviation handle := N (only parsing).
Abbreviation VkInstance := N (only parsing).
Abbreviation VkDebugUtilsMessengerEXT := N (only parsing).
Abbreviation VkPhysicalDevice := N (only parsing).
Abbreviation VkDevice := N (only parsing).
Abbreviation VkSurfaceKHR := N (only parsing).
Abbreviation VkSwapchainKHR := N (only parsing).
Abbreviation VkImage := N (only parsing).
Abbreviation VkImageView := N (only parsing).
Abbreviation VkCommandPool := N (only parsing).
Abbreviation VkCommandBuffer := N (only parsing).
Abbreviation VkSemaphore := N (only parsing).
Abbreviation VkFence := N (only parsing).
Abbreviation VkQueue := N (only parsing).
Abbreviation VmaAllocator := N (only parsing).
Abbreviation VmaAllocation := N (only parsing).
Abbreviation SDL_Window := N (only parsing).

Definition nullptr : handle := 0%N.

(** [VkResult] is a C enum; zero is success, everything else makes
    [VK_CHECK] give up. *)
Abbreviation VkResult := Z (only parsing).
Definition VK_SUCCESS : VkResult := 0.
Definition VK_NOT_READY : VkResult := 1.
Definition VK_TIMEOUT : VkResult := 2.
Definition VK_ERROR_DEVICE_LOST : VkResult := -4.
Definition VK_SUBOPTIMAL_KHR : VkResult := 1000001003.
Definition VK_ERROR_OUT_OF_DATE_KHR : VkResult := -1000001004.

Inductive VkImageLayout :=
| VK_IMAGE_LAYOUT_UNDEFINED
| VK_IMAGE_LAYOUT_GENERAL
| VK_IMAGE_LAYOUT_TRANSFER_SRC_OPTIMAL
| VK_IMAGE_LAYOUT_TRANSFER_DST_OPTIMAL
| VK_IMAGE_LAYOUT_PRESENT_SRC_KHR.

Abbreviation VkFlags := Z (only parsing).
Definition VK_FENCE_CREATE_SIGNALED_BIT : VkFlags := 1.
Definition VK_COMMAND_POOL_CREATE_RESET_COMMAND_BUFFER_BIT : VkFlags := 2.
Definition VK_COMMAND_BUFFER_USAGE_ONE_TIME_SUBMIT_BIT : VkFlags := 1.
Definition VK_PIPELINE_STAGE_2_COLOR_ATTACHMENT_OUTPUT_BIT_KHR : VkFlags := 1024.
Definition VK_PIPELINE_STAGE_2_ALL_COMMANDS_BIT : VkFlags := 65536.
Definition VK_IMAGE_USAGE_TRANSFER_SRC_BIT : VkFlags := 1.
Definition VK_IMAGE_USAGE_TRANSFER_DST_BIT : VkFlags := 2.
Definition VK_IMAGE_USAGE_STORAGE_BIT : VkFlags := 8.
Definition VK_IMAGE_USAGE_COLOR_ATTACHMENT_BIT : VkFlags := 16.
Definition VK_IMAGE_ASPECT_COLOR_BIT : VkFlags := 1.
Definition VK_MEMORY_PROPERTY_DEVICE_LOCAL_BIT : VkFlags := 1.
Definition VMA_ALLOCATOR_CREATE_BUFFER_DEVICE_ADDRESS_BIT : VkFlags := 32.

Inductive VkFormat := VK_FORMAT_B8G8R8A8_UNORM | VK_FORMAT_R16G16B16A16_SFLOAT.
Inductive VkPresentModeKHR := VK_PRESENT_MODE_FIFO_KHR.
Inductive VkColorSpaceKHR := VK_COLOR_SPACE_SRGB_NONLINEAR_KHR.
Inductive VmaMemoryUsage := VMA_MEMORY_USAGE_GPU_ONLY.

Record VkExtent2D := { width : Z; height : Z }.
Record VkExtent3D := { width3 : Z; height3 : Z; depth3 : Z }.

(** vk_types.h is not among the sources; [AllocatedImage] has the members
    the engine reads and writes. *)
Record AllocatedImage := {
  image : VkImage;
  imageView : VkImageView;
  allocation : VmaAllocation;
  imageExtent : VkExtent3D;
  imageFormat : VkFormat
}.

Definition with_image (v : VkImage) (a : AllocatedImage) : AllocatedImage :=
  {| image := v; imageView := imageView a; allocation := allocation a;
     imageExtent := imageExtent a; imageFormat := imageFormat a |}.
Definition with_imageView (v : VkImageView) (a : AllocatedImage) : AllocatedImage :=
  {| image := image a; imageView := v; allocation := allocation a;
     imageExtent := imageExtent a; imageFormat := imageFormat a |}.
Definition with_allocation (v : VmaAllocation) (a : AllocatedImage) : AllocatedImage :=
  {| image := image a; imageView := imageView a; allocation := v;
     imageExtent := imageExtent a; imageFormat := imageFormat a |}.
Definition with_imageExtent (v : VkExtent3D) (a : AllocatedImage) : AllocatedImage :=
  {| image := image a; imageView := imageView a; allocation := allocation a;
     imageExtent := v; imageFormat := imageFormat a |}.
Definition with_imageFormat (v : VkFormat) (a : AllocatedImage) : AllocatedImage :=
  {| image := image a; imageView := imageView a; allocation := allocation a;
     imageExtent := imageExtent a; imageFormat := v |}.

Record VkSemaphoreSubmitInfo := { semaphore : VkSemaphore; stageMask : VkFlags }.

Record VkSubmitInfo2 := {
  pWaitSemaphoreInfos : list VkSemaphoreSubmitInfo;
  pCommandBufferInfos : list VkCommandBuffer;
  pSignalSemaphoreInfos : list VkSemaphoreSubmitInfo
}.

Record VkPresentInfoKHR := {
  pWaitSemaphores : list VkSemaphore;
  pSwapchains : list VkSwapchainKHR;
  pImageIndices : list N
}.

(** Modelled from the spec: the [vkinit] helpers (vk_initializers.cpp is not
    among the sources).  Each one fills the Vulkan structure of its name with
    its arguments: a semaphore with the stage it waits or signals at, and a
    submission with one command buffer, one signal and one wait. *)
Definition semaphore_submit_info (stage : VkFlags) (sem : VkSemaphore) : VkSemaphoreSubmitInfo :=
  {| semaphore := sem; stageMask := stage |}.

Definition submit_info (cmd : VkCommandBuffer)
    (signalSemaphoreInfo waitSemaphoreInfo : VkSemaphoreSubmitInfo) : VkSubmitInfo2 :=
  {| pWaitSemaphoreInfos := [waitSemaphoreInfo];
     pCommandBufferInfos := [cmd];
     pSignalSemaphoreInfos := [signalSemaphoreInfo] |}.

Definition fence_create_info (flags : VkFlags) : VkFlags := flags.
Definition command_pool_create_info (queueFamilyIndex : N) (flags : VkFlags) : N * VkFlags :=
  (queueFamilyIndex, flags).
Definition command_buffer_begin_info (flags : VkFlags) : VkFlags := flags.

(** ** API calls

    One constructor per external function the engine calls.  A call is
    logged with its arguments, then the handles it wrote through its
    out-pointers, then its [VkResult] where the engine looks at it. *)
Inductive Call :=
(* SDL *)
| SDL_Init
| SDL_CreateWindow (title : string) (w h : Z) (window : SDL_Window)
| SDL_Vulkan_CreateSurface (window : SDL_Window) (instance : VkInstance) (surface : VkSurfaceKHR)
| SDL_DestroyWindow (window : SDL_Window)
(* vk-bootstrap *)
| vkb_InstanceBuilder_build (validation : bool) (instance : VkInstance)
    (messenger : VkDebugUtilsMessengerEXT) (ok : bool)
| vkb_PhysicalDeviceSelector_select (surface : VkSurfaceKHR) (gpu : VkPhysicalDevice) (ok : bool)
| vkb_DeviceBuilder_build (gpu : VkPhysicalDevice) (device : VkDevice) (ok : bool)
| vkb_get_queue (device : VkDevice) (queue : VkQueue) (ok : bool)
| vkb_get_queue_index (device : VkDevice) (family : N) (ok : bool)
| vkb_SwapchainBuilder_build (gpu : VkPhysicalDevice) (device : VkDevice) (surface : VkSurfaceKHR)
    (format : VkFormat) (colorSpace : VkColorSpaceKHR) (mode : VkPresentModeKHR)
    (desired : VkExtent2D) (usage : VkFlags)
    (swapchain : VkSwapchainKHR) (extent : VkExtent2D) (ok : bool)
| vkb_Swapchain_get_images (swapchain : VkSwapchainKHR) (images : list VkImage) (ok : bool)
| vkb_Swapchain_get_image_views (swapchain : VkSwapchainKHR) (views : list VkImageView)
    (ok : bool)
| vkb_destroy_debug_utils_messenger (instance : VkInstance) (messenger : VkDebugUtilsMessengerEXT)
(* VMA *)
| vmaCreateAllocator (gpu : VkPhysicalDevice) (device : VkDevice) (instance : VkInstance)
    (flags : VkFlags) (allocator : VmaAllocator)
| vmaDestroyAllocator (allocator : VmaAllocator)
| vmaCreateImage (allocator : VmaAllocator) (format : VkFormat) (usage : VkFlags)
    (extent : VkExtent3D) (memory : VmaMemoryUsage) (required : VkFlags)
    (img : VkImage) (alloc : VmaAllocation)
| vmaDestroyImage (allocator : VmaAllocator) (img : VkImage) (alloc : VmaAllocation)
(* Vulkan: objects *)
| vkCreateImageView (device : VkDevice) (format : VkFormat) (img : VkImage) (aspect : VkFlags)
    (view : VkImageView) (r : VkResult)
| vkDestroyImageView (device : VkDevice) (view : VkImageView)
| vkDestroySwapchainKHR (device : VkDevice) (swapchain : VkSwapchainKHR)
| vkCreateCommandPool (device : VkDevice) (info : N * VkFlags) (pool : VkCommandPool) (r : VkResult)
| vkAllocateCommandBuffers (device : VkDevice) (pool : VkCommandPool) (count : N)
    (cmd : VkCommandBuffer) (r : VkResult)
| vkDestroyCommandPool (device : VkDevice) (pool : VkCommandPool)
| vkCreateFence (device : VkDevice) (flags : VkFlags) (fence : VkFence) (r : VkResult)
| vkDestroyFence (device : VkDevice) (fence : VkFence)
| vkCreateSemaphore (device : VkDevice) (sem : VkSemaphore) (r : VkResult)
| vkDestroySemaphore (device : VkDevice) (sem : VkSemaphore)
| vkDestroySurfaceKHR (instance : VkInstance) (surface : VkSurfaceKHR)
| vkDestroyDevice (device : VkDevice)
| vkDestroyInstance (instance : VkInstance)
(* Vulkan: synchronisation and queues *)
| vkDeviceWaitIdle (device : VkDevice)
| vkWaitForFences (device : VkDevice) (fence : VkFence) (waitAll : bool) (timeout : Z) (r : VkResult)
| vkResetFences (device : VkDevice) (fence : VkFence) (r : VkResult)
| vkAcquireNextImageKHR (device : VkDevice) (swapchain : VkSwapchainKHR) (timeout : Z)
    (sem : VkSemaphore) (fence : VkFence) (imageIndex : N) (r : VkResult)
| vkQueueSubmit2 (queue : VkQueue) (submit : VkSubmitInfo2) (fence : VkFence) (r : VkResult)
| vkQueuePresentKHR (queue : VkQueue) (info : VkPresentInfoKHR) (r : VkResult)
(* Vulkan: command buffers *)
| vkResetCommandBuffer (cmd : VkCommandBuffer) (flags : VkFlags) (r : VkResult)
| vkBeginCommandBuffer (cmd : VkCommandBuffer) (flags : VkFlags) (r : VkResult)
| vkEndCommandBuffer (cmd : VkCommandBuffer) (r : VkResult)
| vkCmdClearColorImage (cmd : VkCommandBuffer) (img : VkImage) (layout : VkImageLayout)
    (frameNumber : Z) (aspect : VkFlags)
(* vkutil (vk_images.h) *)
| transition_image (cmd : VkCommandBuffer) (img : VkImage) (currentLayout newLayout : VkImageLayout)
| copy_image_to_image (cmd : VkCommandBuffer) (source destination : VkImage)
    (srcSize dstSize : VkExtent2D)
(* the rest *)
| fmt_print (text : string)
| sleep_for_milliseconds (ms : Z).

(** ** Window events *)

Inductive SDL_WindowEventID :=
| SDL_WINDOWEVENT_MINIMIZED
| SDL_WINDOWEVENT_RESTORED
| SDL_WINDOWEVENT_OTHER.

Inductive SDL_Keycode := SDLK_SPACE | SDLK_ESCAPE | SDLK_OTHER.

Inductive SDL_Event :=
| SDL_QUIT
| SDL_WINDOWEVENT (event : SDL_WindowEventID)
| SDL_KEYDOWN (sym : SDL_Keycode)
| SDL_OTHEREVENT.

(** ** DeletionQueue (vk_engine.h)

    [std::deque<std::function<void()>>]: the deletors in push order.  The
    queue is generic in what a deletor is ([F]) and in the state it acts on
    ([W]); [invoke] is the call operator of [std::function]. *)
Record DeletionQueue (F : Type) := { deletors : list F }.
Arguments deletors {F} _.

Section DeletionQueue.
Context {F W : Type}.
Variable invoke : F -> W -> W.

  (** [deletors.push_back(function)] *)
Definition push_function (function : F) (q : DeletionQueue F) : DeletionQueue F :=
    {| deletors := deletors q ++ [function] |}.

  (** The loop [for (it = first; it != last; it++) (\*it)();]. *)
Fixpoint call_in_order (its : list F) (w : W) : W :=
    match its with
    | [] => w
    | it :: rest => call_in_order rest (invoke it w)
    end.

  (** [flush]: from [rbegin] to [rend], then [deletors.clear()]. *)
Definition flush (q : DeletionQueue F) (w : W) : W * DeletionQueue F :=
    (call_in_order (rev (deletors q)) w, {| deletors := [] |}).
End DeletionQueue.

(** A queue that logs which deletors ran, oldest first. *)
Definition record_call {F : Type} (f : F) (log : list F) : list F := log ++ [f].

(** In the engine a deletor is the list of release calls its lambda makes.
    Both lambdas the engine registers read members that are assigned once,
    before the push, so their calls are fixed when they are pushed. *)
Abbreviation Deletor := (list Call) (only parsing).

(** ** FrameData and VulkanEngine (vk_engine.h) *)

Record FrameData := {
  _commandPool : VkCommandPool;
  _mainCommandBuffer : VkCommandBuffer;
  _swapchainSemaphore : VkSemaphore;
  _renderSemaphore : VkSemaphore;
  _renderFence : VkFence;
  _deletionQueue : DeletionQueue Deletor
}.

Definition FRAME_OVERLAP : nat := 2.

(** [FrameData _frames[FRAME_OVERLAP]] is a fixed array of two slots. *)
Record VulkanEngine := {
  _isInitialized : bool;
  _frameNumber : Z;
  stop_rendering : bool;
  _windowExtent : VkExtent2D;
  _instance : VkInstance;
  _debugMessenger : VkDebugUtilsMessengerEXT;
  _chosenGPU : VkPhysicalDevice;
  _device : VkDevice;
  _surface : VkSurfaceKHR;
  _swapchain : VkSwapchainKHR;
  _swapchainImageFormat : VkFormat;
  _swapchainImages : list VkImage;
  _swapchainImageViews : list VkImageView;
  _swapchainExtent : VkExtent2D;
  _frames : FrameData * FrameData;
  _graphicsQueue : VkQueue;
  _graphicsQueueFamily : N;
  _window : SDL_Window;
  _mainDeletionQueue : DeletionQueue Deletor;
  _allocator : VmaAllocator;
  _drawImage : AllocatedImage;
  _drawExtent : VkExtent2D
}.

(** ** The world outside the engine *)

(** A fence is unsignaled, signaled, or tied to a submission the GPU has
    not been seen to finish. *)
Inductive FenceState := Unsignaled | Signaled | Pending.

(** What the driver answers to a call: a result code and, for the calls
    that ask for one, the index of the acquired image, the number of
    images (or image views) of a swapchain, or the extent it gave a new
    swapchain. *)
Record Reply := {
  result : VkResult;
  imageIndex : N;
  imageCount : nat;
  chosenExtent : VkExtent2D
}.

Record World := {
  calls : list Call;
  served : nat;
  fences : gmap N FenceState;
  next_handle : N;
  oracle : nat -> Reply;
  events : list (option SDL_Event)
}.

(** The process: the global [VulkanEngine* loadedEngine], the engine object
    and the world. *)
Record Process := {
  loadedEngine : option N;
  engine : VulkanEngine;
  world : World
}.

(** *** Member assignment *)

Definition with_commandPool (v : VkCommandPool) (f : FrameData) : FrameData :=
  {| _commandPool := v; _mainCommandBuffer := _mainCommandBuffer f;
     _swapchainSemaphore := _swapchainSemaphore f; _renderSemaphore := _renderSemaphore f;
     _renderFence := _renderFence f; _deletionQueue := _deletionQueue f |}.
Definition with_mainCommandBuffer (v : VkCommandBuffer) (f : FrameData) : FrameData :=
  {| _commandPool := _commandPool f; _mainCommandBuffer := v;
     _swapchainSemaphore := _swapchainSemaphore f; _renderSemaphore := _renderSemaphore f;
     _renderFence := _renderFence f; _deletionQueue := _deletionQueue f |}.
Definition with_swapchainSemaphore (v : VkSemaphore) (f : FrameData) : FrameData :=
  {| _commandPool := _commandPool f; _mainCommandBuffer := _mainCommandBuffer f;
     _swapchainSemaphore := v; _renderSemaphore := _renderSemaphore f;
     _renderFence := _renderFence f; _deletionQueue := _deletionQueue f |}.
Definition with_renderSemaphore (v : VkSemaphore) (f : FrameData) : FrameData :=
  {| _commandPool := _commandPool f; _mainCommandBuffer := _mainCommandBuffer f;
     _swapchainSemaphore := _swapchainSemaphore f; _renderSemaphore := v;
     _renderFence := _renderFence f; _deletionQueue := _deletionQueue f |}.
Definition with_renderFence (v : VkFence) (f : FrameData) : FrameData :=
  {| _commandPool := _commandPool f; _mainCommandBuffer := _mainCommandBuffer f;
     _swapchainSemaphore := _swapchainSemaphore f; _renderSemaphore := _renderSemaphore f;
     _renderFence := v; _deletionQueue := _deletionQueue f |}.
Definition with_deletionQueue (v : DeletionQueue Deletor) (f : FrameData) : FrameData :=
  {| _commandPool := _commandPool f; _mainCommandBuffer := _mainCommandBuffer f;
     _swapchainSemaphore := _swapchainSemaphore f; _renderSemaphore := _renderSemaphore f;
     _renderFence := _renderFence f; _deletionQueue := v |}.

Definition with_isInitialized (v : bool) (e : VulkanEngine) : VulkanEngine :=
  {| _isInitialized := v; _frameNumber := _frameNumber e; stop_rendering := stop_rendering e;
     _windowExtent := _windowExtent e; _instance := _instance e;
     _debugMessenger := _debugMessenger e; _chosenGPU := _chosenGPU e; _device := _device e;
     _surface := _surface e; _swapchain := _swapchain e;
     _swapchainImageFormat := _swapchainImageFormat e; _swapchainImages := _swapchainImages e;
     _swapchainImageViews := _swapchainImageViews e; _swapchainExtent := _swapchainExtent e;
     _frames := _frames e; _graphicsQueue := _graphicsQueue e;
     _graphicsQueueFamily := _graphicsQueueFamily e; _window := _window e;
     _mainDeletionQueue := _mainDeletionQueue e; _allocator := _allocator e;
     _drawImage := _drawImage e; _drawExtent := _drawExtent e |}.
Definition with_frameNumber (v : Z) (e : VulkanEngine) : VulkanEngine :=
  {| _isInitialized := _isInitialized e; _frameNumber := v; stop_rendering := stop_rendering e;
     _windowExtent := _windowExtent e; _instance := _instance e;
     _debugMessenger := _debugMessenger e; _chosenGPU := _chosenGPU e; _device := _device e;
     _surface := _surface e; _swapchain := _swapchain e;
     _swapchainImageFormat := _swapchainImageFormat e; _swapchainImages := _swapchainImages e;
     _swapchainImageViews := _swapchainImageViews e; _swapchainExtent := _swapchainExtent e;
     _frames := _frames e; _graphicsQueue := _graphicsQueue e;
     _graphicsQueueFamily := _graphicsQueueFamily e; _window := _window e;
     _mainDeletionQueue := _mainDeletionQueue e; _allocator := _allocator e;
     _drawImage := _drawImage e; _drawExtent := _drawExtent e |}.
Definition with_stop_rendering (v : bool) (e : VulkanEngine) : VulkanEngine :=
  {| _isInitialized := _isInitialized e; _frameNumber := _frameNumber e; stop_rendering := v;
     _windowExtent := _windowExtent e; _instance := _instance e;
     _debugMessenger := _debugMessenger e; _chosenGPU := _chosenGPU e; _device := _device e;
     _surface := _surface e; _swapchain := _swapchain e;
     _swapchainImageFormat := _swapchainImageFormat e; _swapchainImages := _swapchainImages e;
     _swapchainImageViews := _swapchainImageViews e; _swapchainExtent := _swapchainExtent e;
     _frames := _frames e; _graphicsQueue := _graphicsQueue e;
     _graphicsQueueFamily := _graphicsQueueFamily e; _window := _window e;
     _mainDeletionQueue := _mainDeletionQueue e; _allocator := _allocator e;
     _drawImage := _drawImage e; _drawExtent := _drawExtent e |}.
Definition with_instance (v : VkInstance) (e : VulkanEngine) : VulkanEngine :=
  {| _isInitialized := _isInitialized e; _frameNumber := _frameNumber e;
     stop_rendering := stop_rendering e; _windowExtent := _windowExtent e; _instance := v;
     _debugMessenger := _debugMessenger e; _chosenGPU := _chosenGPU e; _device := _device e;
     _surface := _surface e; _swapchain := _swapchain e;
     _swapchainImageFormat := _swapchainImageFormat e; _swapchainImages := _swapchainImages e;
     _swapchainImageViews := _swapchainImageViews e; _swapchainExtent := _swapchainExtent e;
     _frames := _frames e; _graphicsQueue := _graphicsQueue e;
     _graphicsQueueFamily := _graphicsQueueFamily e; _window := _window e;
     _mainDeletionQueue := _mainDeletionQueue e; _allocator := _allocator e;
     _drawImage := _drawImage e; _drawExtent := _drawExtent e |}.
Definition with_debugMessenger (v : VkDebugUtilsMessengerEXT) (e : VulkanEngine) : VulkanEngine :=
  {| _isInitialized := _isInitialized e; _frameNumber := _frameNumber e;
     stop_rendering := stop_rendering e; _windowExtent := _windowExtent e;
     _instance := _instance e; _debugMessenger := v; _chosenGPU := _chosenGPU e;
     _device := _device e; _surface := _surface e; _swapchain := _swapchain e;
     _swapchainImageFormat := _swapchainImageFormat e; _swapchainImages := _swapchainImages e;
     _swapchainImageViews := _swapchainImageViews e; _swapchainExtent := _swapchainExtent e;
     _frames := _frames e; _graphicsQueue := _graphicsQueue e;
     _graphicsQueueFamily := _graphicsQueueFamily e; _window := _window e;
     _mainDeletionQueue := _mainDeletionQueue e; _allocator := _allocator e;
     _drawImage := _drawImage e; _drawExtent := _drawExtent e |}.
Definition with_chosenGPU (v : VkPhysicalDevice) (e : VulkanEngine) : VulkanEngine :=
  {| _isInitialized := _isInitialized e; _frameNumber := _frameNumber e;
     stop_rendering := stop_rendering e; _windowExtent := _windowExtent e;
     _instance := _instance e; _debugMessenger := _debugMessenger e; _chosenGPU := v;
     _device := _device e; _surface := _surface e; _swapchain := _swapchain e;
     _swapchainImageFormat := _swapchainImageFormat e; _swapchainImages := _swapchainImages e;
     _swapchainImageViews := _swapchainImageViews e; _swapchainExtent := _swapchainExtent e;
     _frames := _frames e; _graphicsQueue := _graphicsQueue e;
     _graphicsQueueFamily := _graphicsQueueFamily e; _window := _window e;
     _mainDeletionQueue := _mainDeletionQueue e; _allocator := _allocator e;
     _drawImage := _drawImage e; _drawExtent := _drawExtent e |}.
Definition with_device (v : VkDevice) (e : VulkanEngine) : VulkanEngine :=
  {| _isInitialized := _isInitialized e; _frameNumber := _frameNumber e;
     stop_rendering := stop_rendering e; _windowExtent := _windowExtent e;
     _instance := _instance e; _debugMessenger := _debugMessenger e;
     _chosenGPU := _chosenGPU e; _device := v; _surface := _surface e;
     _swapchain := _swapchain e; _swapchainImageFormat := _swapchainImageFormat e;
     _swapchainImages := _swapchainImages e; _swapchainImageViews := _swapchainImageViews e;
     _swapchainExtent := _swapchainExtent e; _frames := _frames e;
     _graphicsQueue := _graphicsQueue e; _graphicsQueueFamily := _graphicsQueueFamily e;
     _window := _window e; _mainDeletionQueue := _mainDeletionQueue e;
     _allocator := _allocator e; _drawImage := _drawImage e; _drawExtent := _drawExtent e |}.
Definition with_surface (v : VkSurfaceKHR) (e : VulkanEngine) : VulkanEngine :=
  {| _isInitialized := _isInitialized e; _frameNumber := _frameNumber e;
     stop_rendering := stop_rendering e; _windowExtent := _windowExtent e;
     _instance := _instance e; _debugMessenger := _debugMessenger e;
     _chosenGPU := _chosenGPU e; _device := _device e; _surface := v;
     _swapchain := _swapchain e; _swapchainImageFormat := _swapchainImageFormat e;
     _swapchainImages := _swapchainImages e; _swapchainImageViews := _swapchainImageViews e;
     _swapchainExtent := _swapchainExtent e; _frames := _frames e;
     _graphicsQueue := _graphicsQueue e; _graphicsQueueFamily := _graphicsQueueFamily e;
     _window := _window e; _mainDeletionQueue := _mainDeletionQueue e;
     _allocator := _allocator e; _drawImage := _drawImage e; _drawExtent := _drawExtent e |}.
Definition with_swapchain (v : VkSwapchainKHR) (e : VulkanEngine) : VulkanEngine :=
  {| _isInitialized := _isInitialized e; _frameNumber := _frameNumber e;
     stop_rendering := stop_rendering e; _windowExtent := _windowExtent e;
     _instance := _instance e; _debugMessenger := _debugMessenger e;
     _chosenGPU := _chosenGPU e; _device := _device e; _surface := _surface e; _swapchain := v;
     _swapchainImageFormat := _swapchainImageFormat e; _swapchainImages := _swapchainImages e;
     _swapchainImageViews := _swapchainImageViews e; _swapchainExtent := _swapchainExtent e;
     _frames := _frames e; _graphicsQueue := _graphicsQueue e;
     _graphicsQueueFamily := _graphicsQueueFamily e; _window := _window e;
     _mainDeletionQueue := _mainDeletionQueue e; _allocator := _allocator e;
     _drawImage := _drawImage e; _drawExtent := _drawExtent e |}.
Definition with_swapchainImageFormat (v : VkFormat) (e : VulkanEngine) : VulkanEngine :=
  {| _isInitialized := _isInitialized e; _frameNumber := _frameNumber e;
     stop_rendering := stop_rendering e; _windowExtent := _windowExtent e;
     _instance := _instance e; _debugMessenger := _debugMessenger e;
     _chosenGPU := _chosenGPU e; _device := _device e; _surface := _surface e;
     _swapchain := _swapchain e; _swapchainImageFormat := v;
     _swapchainImages := _swapchainImages e; _swapchainImageViews := _swapchainImageViews e;
     _swapchainExtent := _swapchainExtent e; _frames := _frames e;
     _graphicsQueue := _graphicsQueue e; _graphicsQueueFamily := _graphicsQueueFamily e;
     _window := _window e; _mainDeletionQueue := _mainDeletionQueue e;
     _allocator := _allocator e; _drawImage := _drawImage e; _drawExtent := _drawExtent e |}.
Definition with_swapchainImages (v : list VkImage) (e : VulkanEngine) : VulkanEngine :=
  {| _isInitialized := _isInitialized e; _frameNumber := _frameNumber e;
     stop_rendering := stop_rendering e; _windowExtent := _windowExtent e;
     _instance := _instance e; _debugMessenger := _debugMessenger e;
     _chosenGPU := _chosenGPU e; _device := _device e; _surface := _surface e;
     _swapchain := _swapchain e; _swapchainImageFormat := _swapchainImageFormat e;
     _swapchainImages := v; _swapchainImageViews := _swapchainImageViews e;
     _swapchainExtent := _swapchainExtent e; _frames := _frames e;
     _graphicsQueue := _graphicsQueue e; _graphicsQueueFamily := _graphicsQueueFamily e;
     _window := _window e; _mainDeletionQueue := _mainDeletionQueue e;
     _allocator := _allocator e; _drawImage := _drawImage e; _drawExtent := _drawExtent e |}.
Definition with_swapchainImageViews (v : list VkImageView) (e : VulkanEngine) : VulkanEngine :=
  {| _isInitialized := _isInitialized e; _frameNumber := _frameNumber e;
     stop_rendering := stop_rendering e; _windowExtent := _windowExtent e;
     _instance := _instance e; _debugMessenger := _debugMessenger e;
     _chosenGPU := _chosenGPU e; _device := _device e; _surface := _surface e;
     _swapchain := _swapchain e; _swapchainImageFormat := _swapchainImageFormat e;
     _swapchainImages := _swapchainImages e; _swapchainImageViews := v;
     _swapchainExtent := _swapchainExtent e; _frames := _frames e;
     _graphicsQueue := _graphicsQueue e; _graphicsQueueFamily := _graphicsQueueFamily e;
     _window := _window e; _mainDeletionQueue := _mainDeletionQueue e;
     _allocator := _allocator e; _drawImage := _drawImage e; _drawExtent := _drawExtent e |}.
Definition with_swapchainExtent (v : VkExtent2D) (e : VulkanEngine) : VulkanEngine :=
  {| _isInitialized := _isInitialized e; _frameNumber := _frameNumber e;
     stop_rendering := stop_rendering e; _windowExtent := _windowExtent e;
     _instance := _instance e; _debugMessenger := _debugMessenger e;
     _chosenGPU := _chosenGPU e; _device := _device e; _surface := _surface e;
     _swapchain := _swapchain e; _swapchainImageFormat := _swapchainImageFormat e;
     _swapchainImages := _swapchainImages e; _swapchainImageViews := _swapchainImageViews e;
     _swapchainExtent := v; _frames := _frames e; _graphicsQueue := _graphicsQueue e;
     _graphicsQueueFamily := _graphicsQueueFamily e; _window := _window e;
     _mainDeletionQueue := _mainDeletionQueue e; _allocator := _allocator e;
     _drawImage := _drawImage e; _drawExtent := _drawExtent e |}.
Definition with_frames (v : FrameData * FrameData) (e : VulkanEngine) : VulkanEngine :=
  {| _isInitialized := _isInitialized e; _frameNumber := _frameNumber e;
     stop_rendering := stop_rendering e; _windowExtent := _windowExtent e;
     _instance := _instance e; _debugMessenger := _debugMessenger e;
     _chosenGPU := _chosenGPU e; _device := _device e; _surface := _surface e;
     _swapchain := _swapchain e; _swapchainImageFormat := _swapchainImageFormat e;
     _swapchainImages := _swapchainImages e; _swapchainImageViews := _swapchainImageViews e;
     _swapchainExtent := _swapchainExtent e; _frames := v; _graphicsQueue := _graphicsQueue e;
     _graphicsQueueFamily := _graphicsQueueFamily e; _window := _window e;
     _mainDeletionQueue := _mainDeletionQueue e; _allocator := _allocator e;
     _drawImage := _drawImage e; _drawExtent := _drawExtent e |}.
Definition with_graphicsQueue (v : VkQueue) (e : VulkanEngine) : VulkanEngine :=
  {| _isInitialized := _isInitialized e; _frameNumber := _frameNumber e;
     stop_rendering := stop_rendering e; _windowExtent := _windowExtent e;
     _instance := _instance e; _debugMessenger := _debugMessenger e;
     _chosenGPU := _chosenGPU e; _device := _device e; _surface := _surface e;
     _swapchain := _swapchain e; _swapchainImageFormat := _swapchainImageFormat e;
     _swapchainImages := _swapchainImages e; _swapchainImageViews := _swapchainImageViews e;
     _swapchainExtent := _swapchainExtent e; _frames := _frames e; _graphicsQueue := v;
     _graphicsQueueFamily := _graphicsQueueFamily e; _window := _window e;
     _mainDeletionQueue := _mainDeletionQueue e; _allocator := _allocator e;
     _drawImage := _drawImage e; _drawExtent := _drawExtent e |}.
Definition with_graphicsQueueFamily (v : N) (e : VulkanEngine) : VulkanEngine :=
  {| _isInitialized := _isInitialized e; _frameNumber := _frameNumber e;
     stop_rendering := stop_rendering e; _windowExtent := _windowExtent e;
     _instance := _instance e; _debugMessenger := _debugMessenger e;
     _chosenGPU := _chosenGPU e; _device := _device e; _surface := _surface e;
     _swapchain := _swapchain e; _swapchainImageFormat := _swapchainImageFormat e;
     _swapchainImages := _swapchainImages e; _swapchainImageViews := _swapchainImageViews e;
     _swapchainExtent := _swapchainExtent e; _frames := _frames e;
     _graphicsQueue := _graphicsQueue e; _graphicsQueueFamily := v; _window := _window e;
     _mainDeletionQueue := _mainDeletionQueue e; _allocator := _allocator e;
     _drawImage := _drawImage e; _drawExtent := _drawExtent e |}.
Definition with_window (v : SDL_Window) (e : VulkanEngine) : VulkanEngine :=
  {| _isInitialized := _isInitialized e; _frameNumber := _frameNumber e;
     stop_rendering := stop_rendering e; _windowExtent := _windowExtent e;
     _instance := _instance e; _debugMessenger := _debugMessenger e;
     _chosenGPU := _chosenGPU e; _device := _device e; _surface := _surface e;
     _swapchain := _swapchain e; _swapchainImageFormat := _swapchainImageFormat e;
     _swapchainImages := _swapchainImages e; _swapchainImageViews := _swapchainImageViews e;
     _swapchainExtent := _swapchainExtent e; _frames := _frames e;
     _graphicsQueue := _graphicsQueue e; _graphicsQueueFamily := _graphicsQueueFamily e;
     _window := v; _mainDeletionQueue := _mainDeletionQueue e; _allocator := _allocator e;
     _drawImage := _drawImage e; _drawExtent := _drawExtent e |}.
Definition with_mainDeletionQueue (v : DeletionQueue Deletor) (e : VulkanEngine) : VulkanEngine :=
  {| _isInitialized := _isInitialized e; _frameNumber := _frameNumber e;
     stop_rendering := stop_rendering e; _windowExtent := _windowExtent e;
     _instance := _instance e; _debugMessenger := _debugMessenger e;
     _chosenGPU := _chosenGPU e; _device := _device e; _surface := _surface e;
     _swapchain := _swapchain e; _swapchainImageFormat := _swapchainImageFormat e;
     _swapchainImages := _swapchainImages e; _swapchainImageViews := _swapchainImageViews e;
     _swapchainExtent := _swapchainExtent e; _frames := _frames e;
     _graphicsQueue := _graphicsQueue e; _graphicsQueueFamily := _graphicsQueueFamily e;
     _window := _window e; _mainDeletionQueue := v; _allocator := _allocator e;
     _drawImage := _drawImage e; _drawExtent := _drawExtent e |}.
Definition with_allocator (v : VmaAllocator) (e : VulkanEngine) : VulkanEngine :=
  {| _isInitialized := _isInitialized e; _frameNumber := _frameNumber e;
     stop_rendering := stop_rendering e; _windowExtent := _windowExtent e;
     _instance := _instance e; _debugMessenger := _debugMessenger e;
     _chosenGPU := _chosenGPU e; _device := _device e; _surface := _surface e;
     _swapchain := _swapchain e; _swapchainImageFormat := _swapchainImageFormat e;
     _swapchainImages := _swapchainImages e; _swapchainImageViews := _swapchainImageViews e;
     _swapchainExtent := _swapchainExtent e; _frames := _frames e;
     _graphicsQueue := _graphicsQueue e; _graphicsQueueFamily := _graphicsQueueFamily e;
     _window := _window e; _mainDeletionQueue := _mainDeletionQueue e; _allocator := v;
     _drawImage := _drawImage e; _drawExtent := _drawExtent e |}.
Definition with_drawImage (v : AllocatedImage) (e : VulkanEngine) : VulkanEngine :=
  {| _isInitialized := _isInitialized e; _frameNumber := _frameNumber e;
     stop_rendering := stop_rendering e; _windowExtent := _windowExtent e;
     _instance := _instance e; _debugMessenger := _debugMessenger e;
     _chosenGPU := _chosenGPU e; _device := _device e; _surface := _surface e;
     _swapchain := _swapchain e; _swapchainImageFormat := _swapchainImageFormat e;
     _swapchainImages := _swapchainImages e; _swapchainImageViews := _swapchainImageViews e;
     _swapchainExtent := _swapchainExtent e; _frames := _frames e;
     _graphicsQueue := _graphicsQueue e; _graphicsQueueFamily := _graphicsQueueFamily e;
     _window := _window e; _mainDeletionQueue := _mainDeletionQueue e;
     _allocator := _allocator e; _drawImage := v; _drawExtent := _drawExtent e |}.
Definition with_drawExtent (v : VkExtent2D) (e : VulkanEngine) : VulkanEngine :=
  {| _isInitialized := _isInitialized e; _frameNumber := _frameNumber e;
     stop_rendering := stop_rendering e; _windowExtent := _windowExtent e;
     _instance := _instance e; _debugMessenger := _debugMessenger e;
     _chosenGPU := _chosenGPU e; _device := _device e; _surface := _surface e;
     _swapchain := _swapchain e; _swapchainImageFormat := _swapchainImageFormat e;
     _swapchainImages := _swapchainImages e; _swapchainImageViews := _swapchainImageViews e;
     _swapchainExtent := _swapchainExtent e; _frames := _frames e;
     _graphicsQueue := _graphicsQueue e; _graphicsQueueFamily := _graphicsQueueFamily e;
     _window := _window e; _mainDeletionQueue := _mainDeletionQueue e;
     _allocator := _allocator e; _drawImage := _drawImage e; _drawExtent := v |}.

Definition with_calls (v : list Call) (w : World) : World :=
  {| calls := v; served := served w; fences := fences w; next_handle := next_handle w;
     oracle := oracle w; events := events w |}.
Definition with_served (v : nat) (w : World) : World :=
  {| calls := calls w; served := v; fences := fences w; next_handle := next_handle w;
     oracle := oracle w; events := events w |}.
Definition with_fences (v : gmap N FenceState) (w : World) : World :=
  {| calls := calls w; served := served w; fences := v; next_handle := next_handle w;
     oracle := oracle w; events := events w |}.
Definition with_next_handle (v : N) (w : World) : World :=
  {| calls := calls w; served := served w; fences := fences w; next_handle := v;
     oracle := oracle w; events := events w |}.
Definition with_events (v : list (option SDL_Event)) (w : World) : World :=
  {| calls := calls w; served := served w; fences := fences w; next_handle := next_handle w;
     oracle := oracle w; events := v |}.

Definition with_loadedEngine (v : option N) (p : Process) : Process :=
  {| loadedEngine := v; engine := engine p; world := world p |}.
Definition with_engine (v : VulkanEngine) (p : Process) : Process :=
  {| loadedEngine := loadedEngine p; engine := v; world := world p |}.
Definition with_world (v : World) (p : Process) : Process :=
  {| loadedEngine := loadedEngine p; engine := engine p; world := v |}.

(** [_frames[i]] and its assignment, for [i < FRAME_OVERLAP]. *)
Definition frame_at (fs : FrameData * FrameData) (i : nat) : FrameData :=
  match i with O => fst fs | S _ => snd fs end.

Definition set_frame_at (i : nat) (f : FrameData) (fs : FrameData * FrameData)
    : FrameData * FrameData :=
  match i with O => (f, snd fs) | S _ => (fst fs, f) end.

(** [_frameNumber % FRAME_OVERLAP]: the [int] is converted to
    [unsigned int] before the remainder is taken. *)
Definition current_index (e : VulkanEngine) : nat :=
  Z.to_nat ((_frameNumber e mod 2 ^ 32) mod Z.of_nat FRAME_OVERLAP).

Definition get_current_frame (e : VulkanEngine) : FrameData :=
  frame_at (_frames e) (current_index e).

(** [_frameNumber++] on a 32-bit [int], wrapping in two's complement where
    C++ leaves the overflow undefined. *)
Definition INT_MAX : Z := 2 ^ 31 - 1.
Definition int_incr (n : Z) : Z := if n + 1 <=? INT_MAX then n + 1 else n + 1 - 2 ^ 32.

(** *** The driver *)

(** How a logged call moves the fences. *)
Definition fence_effect (c : Call) (fs : gmap N FenceState) : gmap N FenceState :=
  match c with
  | vkCreateFence _ flags fence r =>
      if r =? VK_SUCCESS
      then <[fence := if Z.land flags VK_FENCE_CREATE_SIGNALED_BIT =? 0
                      then Unsignaled else Signaled]> fs
      else fs
  | vkResetFences _ fence r => if r =? VK_SUCCESS then <[fence := Unsignaled]> fs else fs
  | vkQueueSubmit2 _ _ fence r => if r =? VK_SUCCESS then <[fence := Pending]> fs else fs
  | vkWaitForFences _ fence _ _ r => if r =? VK_SUCCESS then <[fence := Signaled]> fs else fs
  | vkDestroyFence _ fence => delete fence fs
  | _ => fs
  end.

Definition emit (c : Call) (w : World) : World :=
  with_calls (calls w ++ [c])
    (with_served (S (served w)) (with_fences (fence_effect c (fences w)) w)).

(** The driver's answer to the call being made now: the oracle is asked by
    the number of calls served so far. *)
Definition reply (w : World) : Reply := oracle w (served w).

(** What waiting on a fence returns: at once with success when it is
    signaled; the driver's answer (success, a timeout, a lost device) when
    the GPU is still working on the submission tied to it; a timeout when
    it is unsignaled and nothing is going to signal it. *)
Definition wait_result (fs : gmap N FenceState) (fence : VkFence) (r : VkResult) : VkResult :=
  match fs !! fence with
  | Some Signaled => VK_SUCCESS
  | Some Pending => r
  | Some Unsignaled => VK_TIMEOUT
  | None => r
  end.

(** Running a deletor makes its calls. *)
Definition invoke_deletor (d : Deletor) (w : World) : World :=
  fold_left (fun w c => emit c w) d w.

(** ** The engine monad: state, [abort()] and undefined behaviour *)

Inductive Outcome (A : Type) :=
| Ok (a : A)
| Abort        (* [assert] failed, [VK_CHECK] or [.value()] gave up *)
| Undefined.   (* a vector was read out of range *)
Arguments Ok {A} a.
Arguments Abort {A}.
Arguments Undefined {A}.

Definition M (A : Type) : Type := Process -> Outcome A * Process.

Definition ret {A} (a : A) : M A := fun p => (Ok a, p).

Definition bind {A B} (m : M A) (k : A -> M B) : M B :=
  fun p =>
    match m p with
    | (Ok a, p') => k a p'
    | (Abort, p') => (Abort, p')
    | (Undefined, p') => (Undefined, p')
    end.

Declare Scope engine_scope.
Delimit Scope engine_scope with engine.
Notation "'let*' x ':=' m 'in' k" := (bind m (fun x => k))
  (at level 10, x name, m at level 100, k at level 200) : engine_scope.
Notation "'let*' ' x ':=' m 'in' k" := (bind m (fun x => k))
  (at level 10, x pattern, m at level 100, k at level 200) : engine_scope.
Notation "m >> k" := (bind m (fun _ => k))
  (at level 90, right associativity) : engine_scope.
Local Open Scope engine_scope.

Definition abort {A} : M A := fun p => (Abort, p).
Definition undefined {A} : M A := fun p => (Undefined, p).

(** [this->...]: read and assign the members. *)
Definition this : M VulkanEngine := fun p => (Ok (engine p), p).
Definition assign (f : VulkanEngine -> VulkanEngine) : M unit :=
  fun p => (Ok tt, with_engine (f (engine p)) p).

(** [ptr == nullptr] *)
Definition is_nullptr (ptr : option N) : bool :=
  match ptr with None => true | Some _ => false end.

(** [assert(cond)] of a debug build. *)
Definition assert (cond : bool) : M unit := if cond then ret tt else abort.

(** A call that returns nothing the engine looks at. *)
Definition call (c : Call) : M unit :=
  fun p => (Ok tt, with_world (emit c (world p)) p).

(** A call whose [VkResult] comes back. *)
Definition ask (c : VkResult -> Call) : M VkResult :=
  fun p => let r := result (reply (world p)) in
           (Ok r, with_world (emit (c r) (world p)) p).

(** A vk-bootstrap builder; [ok] is whether its [Result] holds a value. *)
Definition ask_ok (c : bool -> Call) : M bool :=
  fun p => let ok := result (reply (world p)) =? VK_SUCCESS in
           (Ok ok, with_world (emit (c ok) (world p)) p).

(** The handle a create call writes through its out-pointer. *)
Definition fresh : M handle :=
  fun p => let h := next_handle (world p) in
           (Ok h, with_world (with_next_handle (h + 1)%N (world p)) p).

Fixpoint fresh_list (n : nat) : M (list handle) :=
  match n with
  | O => ret []
  | S n' => let* h := fresh in let* hs := fresh_list n' in ret (h :: hs)
  end.

(** Modelled from the spec: the [VK_CHECK] macro (vk_types.h is not among
    the sources).  Any result other than success is a "generic abort-worthy
    error": the process stops there. *)
Definition VK_CHECK (x : M VkResult) : M unit :=
  let* err := x in if err =? VK_SUCCESS then ret tt else abort.

(** [.value()] of a vk-bootstrap [Result]. *)
Definition value_or_abort (x : M bool) : M unit :=
  let* ok := x in if ok then ret tt else abort.

(** [v[i]] of a [std::vector]. *)
Definition at_index {A} (v : list A) (i : nat) : M A :=
  match v !! i with Some a => ret a | None => undefined end.

(** [for (int i = first; i < first + count; i++) body(i)] *)
Fixpoint for_from (first count : nat) (body : nat -> M unit) : M unit :=
  match count with
  | O => ret tt
  | S count' => body first >> for_from (S first) count' body
  end.

Definition vkWaitForFences_ (device : VkDevice) (fence : VkFence) (waitAll : bool) (timeout : Z)
    : M VkResult :=
  fun p => let w := world p in
           let r := wait_result (fences w) fence (result (reply w)) in
           (Ok r, with_world (emit (vkWaitForFences device fence waitAll timeout r) w) p).

Definition vkAcquireNextImageKHR_ (device : VkDevice) (swapchain : VkSwapchainKHR) (timeout : Z)
    (sem : VkSemaphore) (fence : VkFence) : M (N * VkResult) :=
  fun p => let w := world p in
           let a := reply w in
           (Ok (imageIndex a, result a),
            with_world (emit (vkAcquireNextImageKHR device swapchain timeout sem fence
                                (imageIndex a) (result a)) w) p).

(** [_frames[i]._deletionQueue.flush()] and [_mainDeletionQueue.flush()] *)
Definition flush_frame (i : nat) : M unit :=
  fun p =>
    let f := frame_at (_frames (engine p)) i in
    let '(w, q) := flush invoke_deletor (_deletionQueue f) (world p) in
    (Ok tt, with_world w
              (with_engine (with_frames (set_frame_at i (with_deletionQueue q f)
                                           (_frames (engine p))) (engine p)) p)).

Definition flush_main : M unit :=
  fun p =>
    let '(w, q) := flush invoke_deletor (_mainDeletionQueue (engine p)) (world p) in
    (Ok tt, with_world w (with_engine (with_mainDeletionQueue q (engine p)) p)).

Definition assign_frame (i : nat) (f : FrameData -> FrameData) : M unit :=
  assign (fun e => with_frames (set_frame_at i (f (frame_at (_frames e) i)) (_frames e)) e).

(** ** VulkanEngine (vk_engine.cpp) *)

Definition bUseValidationLayers : bool := true.

Definition init_vulkan : M unit :=
  (* vulkan instance *)
  let* instance := fresh in
  let* messenger := fresh in
  value_or_abort (ask_ok (vkb_InstanceBuilder_build bUseValidationLayers instance messenger)) >>
  assign (with_instance instance) >>
  assign (with_debugMessenger messenger) >>
  (* surface, physical and logical device *)
  let* e := this in
  let* surface := fresh in
  call (SDL_Vulkan_CreateSurface (_window e) (_instance e) surface) >>
  assign (with_surface surface) >>
  let* gpu := fresh in
  value_or_abort (ask_ok (vkb_PhysicalDeviceSelector_select surface gpu)) >>
  let* device := fresh in
  value_or_abort (ask_ok (vkb_DeviceBuilder_build gpu device)) >>
  assign (with_device device) >>
  assign (with_chosenGPU gpu) >>
  (* queue *)
  let* queue := fresh in
  value_or_abort (ask_ok (vkb_get_queue device queue)) >>
  assign (with_graphicsQueue queue) >>
  let* family := fresh in
  value_or_abort (ask_ok (vkb_get_queue_index device family)) >>
  assign (with_graphicsQueueFamily family) >>
  (* memory allocator *)
  let* e := this in
  let* allocator := fresh in
  call (vmaCreateAllocator (_chosenGPU e) (_device e) (_instance e)
          VMA_ALLOCATOR_CREATE_BUFFER_DEVICE_ADDRESS_BIT allocator) >>
  assign (with_allocator allocator) >>
  assign (fun e => with_mainDeletionQueue
                     (push_function [vmaDestroyAllocator (_allocator e)] (_mainDeletionQueue e)) e).

(** Three vk-bootstrap calls, each unwrapped by [.value()]: the build,
    whose swapchain and extent are stored at once, then [get_images] and
    [get_image_views].  The extent is the one the swapchain got, which
    need not be the desired one. *)
Definition create_swapchain (w h : Z) : M unit :=
  assign (with_swapchainImageFormat VK_FORMAT_B8G8R8A8_UNORM) >>
  let* e := this in
  let* swapchain := fresh in
  let* extent := fun p => (Ok (chosenExtent (reply (world p))), p) in
  value_or_abort
    (ask_ok (vkb_SwapchainBuilder_build (_chosenGPU e) (_device e) (_surface e)
               (_swapchainImageFormat e) VK_COLOR_SPACE_SRGB_NONLINEAR_KHR
               VK_PRESENT_MODE_FIFO_KHR {| width := w; height := h |}
               VK_IMAGE_USAGE_TRANSFER_DST_BIT swapchain extent)) >>
  (* store swapchain, its extent, and its related images *)
  assign (with_swapchainExtent extent) >>
  assign (with_swapchain swapchain) >>
  let* count := fun p => (Ok (imageCount (reply (world p))), p) in
  let* images := fresh_list count in
  value_or_abort (ask_ok (vkb_Swapchain_get_images swapchain images)) >>
  assign (with_swapchainImages images) >>
  let* count := fun p => (Ok (imageCount (reply (world p))), p) in
  let* views := fresh_list count in
  value_or_abort (ask_ok (vkb_Swapchain_get_image_views swapchain views)) >>
  assign (with_swapchainImageViews views).

Definition destroy_swapchain : M unit :=
  let* e := this in
  call (vkDestroySwapchainKHR (_device e) (_swapchain e)) >>
  (* destroy swapchain resources *)
  for_from 0 (length (_swapchainImageViews e)) (fun i =>
    let* e := this in
    let* view := at_index (_swapchainImageViews e) i in
    call (vkDestroyImageView (_device e) view)).

Definition init_swapchain : M unit :=
  let* e := this in
  create_swapchain (width (_windowExtent e)) (height (_windowExtent e)) >>
  (* the draw image matches the window size *)
  let drawImageExtent :=
    {| width3 := width (_windowExtent e); height3 := height (_windowExtent e); depth3 := 1 |} in
  assign (fun e => with_drawImage
                     (with_imageFormat VK_FORMAT_R16G16B16A16_SFLOAT (_drawImage e)) e) >>
  assign (fun e => with_drawImage (with_imageExtent drawImageExtent (_drawImage e)) e) >>
  let drawImageUsages :=
    Z.lor (Z.lor (Z.lor (Z.lor 0 VK_IMAGE_USAGE_TRANSFER_SRC_BIT) VK_IMAGE_USAGE_TRANSFER_DST_BIT)
             VK_IMAGE_USAGE_STORAGE_BIT) VK_IMAGE_USAGE_COLOR_ATTACHMENT_BIT in
  let* e := this in
  let* img := fresh in
  let* alloc := fresh in
  assign (fun e => with_drawImage (with_allocation alloc (with_image img (_drawImage e))) e) >>
  call (vmaCreateImage (_allocator e) (imageFormat (_drawImage e)) drawImageUsages
          drawImageExtent VMA_MEMORY_USAGE_GPU_ONLY VK_MEMORY_PROPERTY_DEVICE_LOCAL_BIT
          img alloc) >>
  (* the image view of the draw image *)
  let* e := this in
  let* view := fresh in
  assign (fun e => with_drawImage (with_imageView view (_drawImage e)) e) >>
  VK_CHECK (ask (vkCreateImageView (_device e) (imageFormat (_drawImage e))
                   (image (_drawImage e)) VK_IMAGE_ASPECT_COLOR_BIT view)) >>
  (* add to deletion queue *)
  assign (fun e => with_mainDeletionQueue
                     (push_function
                        [vkDestroyImageView (_device e) (imageView (_drawImage e));
                         vmaDestroyImage (_allocator e) (image (_drawImage e))
                           (allocation (_drawImage e))]
                        (_mainDeletionQueue e)) e).

Definition init_commands : M unit :=
  let* e := this in
  let commandPoolInfo :=
    command_pool_create_info (_graphicsQueueFamily e)
      VK_COMMAND_POOL_CREATE_RESET_COMMAND_BUFFER_BIT in
  for_from 0 FRAME_OVERLAP (fun i =>
    let* pool := fresh in
    assign_frame i (with_commandPool pool) >>
    VK_CHECK (ask (vkCreateCommandPool (_device e) commandPoolInfo pool)) >>
    let* cmd := fresh in
    assign_frame i (with_mainCommandBuffer cmd) >>
    VK_CHECK (ask (vkAllocateCommandBuffers (_device e) pool 1 cmd))).

Definition init_sync_structures : M unit :=
  (* the fence starts signalled so we can wait on it on the first frame *)
  let fenceCreateInfo := fence_create_info VK_FENCE_CREATE_SIGNALED_BIT in
  let* e := this in
  for_from 0 FRAME_OVERLAP (fun i =>
    let* fence := fresh in
    assign_frame i (with_renderFence fence) >>
    VK_CHECK (ask (vkCreateFence (_device e) fenceCreateInfo fence)) >>
    let* sem := fresh in
    assign_frame i (with_swapchainSemaphore sem) >>
    VK_CHECK (ask (vkCreateSemaphore (_device e) sem)) >>
    let* sem := fresh in
    assign_frame i (with_renderSemaphore sem) >>
    VK_CHECK (ask (vkCreateSemaphore (_device e) sem))).

(** [VulkanEngine::Get()]: the engine behind the global pointer, which it
    dereferences unchecked. *)
Definition Get : M N :=
  fun p => match loadedEngine p with
           | Some loaded => (Ok loaded, p)
           | None => (Undefined, p)
           end.

(** [init], called on the engine object at address [self]. *)
Definition init (self : N) : M unit :=
  (* only one engine initialization is allowed with the application *)
  let* loaded := (fun p => (Ok (loadedEngine p), p)) in
  assert (is_nullptr loaded) >>
  (fun p => (Ok tt, with_loadedEngine (Some self) p)) >>
  call SDL_Init >>
  let* e := this in
  let* window := fresh in
  call (SDL_CreateWindow "Vulkan Engine"%string (width (_windowExtent e))
          (height (_windowExtent e)) window) >>
  assign (with_window window) >>
  init_vulkan >>
  init_swapchain >>
  init_commands >>
  init_sync_structures >>
  (* everything went fine *)
  assign (with_isInitialized true).

Definition cleanup : M unit :=
  let* e := this in
  (if _isInitialized e then
     (* make sure the GPU has stopped doing its things *)
     call (vkDeviceWaitIdle (_device e)) >>
     for_from 0 FRAME_OVERLAP (fun i =>
       let* e := this in
       let f := frame_at (_frames e) i in
       call (vkDestroyCommandPool (_device e) (_commandPool f)) >>
       call (vkDestroyFence (_device e) (_renderFence f)) >>
       call (vkDestroySemaphore (_device e) (_renderSemaphore f)) >>
       call (vkDestroySemaphore (_device e) (_swapchainSemaphore f)) >>
       flush_frame i) >>
     flush_main >>
     destroy_swapchain >>
     let* e := this in
     call (vkDestroySurfaceKHR (_instance e) (_surface e)) >>
     call (vkDestroyDevice (_device e)) >>
     call (vkb_destroy_debug_utils_messenger (_instance e) (_debugMessenger e)) >>
     call (vkDestroyInstance (_instance e)) >>
     call (SDL_DestroyWindow (_window e))
   else ret tt) >>
  (* clear engine pointer *)
  (fun p => (Ok tt, with_loadedEngine None p)).

(** The clear colour is a function of [_frameNumber]; the call is logged
    with the frame number instead of the float. *)
Definition draw_background (cmdBuff : VkCommandBuffer) : M unit :=
  let* e := this in
  call (vkCmdClearColorImage cmdBuff (image (_drawImage e)) VK_IMAGE_LAYOUT_GENERAL
          (_frameNumber e) VK_IMAGE_ASPECT_COLOR_BIT).

Definition draw : M unit :=
  let* e := this in
  (* wait until the GPU has finished rendering the last frame; timeout of 1 second *)
  VK_CHECK (vkWaitForFences_ (_device e) (_renderFence (get_current_frame e)) true 1000000000) >>
  flush_frame (current_index e) >>
  let* e := this in
  VK_CHECK (ask (vkResetFences (_device e) (_renderFence (get_current_frame e)))) >>
  (* request an image index from the swapchain *)
  let* '(swapchainImageIndex, err) :=
    vkAcquireNextImageKHR_ (_device e) (_swapchain e) 1000000000
      (_swapchainSemaphore (get_current_frame e)) nullptr in
  VK_CHECK (ret err) >>
  let cmdBuff := _mainCommandBuffer (get_current_frame e) in
  VK_CHECK (ask (vkResetCommandBuffer cmdBuff 0)) >>
  let cmdBuffBeginInfo :=
    command_buffer_begin_info VK_COMMAND_BUFFER_USAGE_ONE_TIME_SUBMIT_BIT in
  assign (fun e => with_drawExtent
                     {| width := width3 (imageExtent (_drawImage e));
                        height := height3 (imageExtent (_drawImage e)) |} e) >>
  VK_CHECK (ask (vkBeginCommandBuffer cmdBuff cmdBuffBeginInfo)) >>
  (* image transitions *)
  let* e := this in
  call (transition_image cmdBuff (image (_drawImage e))
          VK_IMAGE_LAYOUT_UNDEFINED VK_IMAGE_LAYOUT_GENERAL) >>
  draw_background cmdBuff >>
  call (transition_image cmdBuff (image (_drawImage e))
          VK_IMAGE_LAYOUT_GENERAL VK_IMAGE_LAYOUT_TRANSFER_SRC_OPTIMAL) >>
  let* swapchainImage := at_index (_swapchainImages e) (N.to_nat swapchainImageIndex) in
  call (transition_image cmdBuff swapchainImage
          VK_IMAGE_LAYOUT_UNDEFINED VK_IMAGE_LAYOUT_TRANSFER_DST_OPTIMAL) >>
  call (copy_image_to_image cmdBuff (image (_drawImage e)) swapchainImage
          (_drawExtent e) (_swapchainExtent e)) >>
  call (transition_image cmdBuff swapchainImage
          VK_IMAGE_LAYOUT_TRANSFER_DST_OPTIMAL VK_IMAGE_LAYOUT_PRESENT_SRC_KHR) >>
  VK_CHECK (ask (vkEndCommandBuffer cmdBuff)) >>
  (* submit command buffer *)
  let waitInfo :=
    semaphore_submit_info VK_PIPELINE_STAGE_2_COLOR_ATTACHMENT_OUTPUT_BIT_KHR
      (_swapchainSemaphore (get_current_frame e)) in
  let signalInfo :=
    semaphore_submit_info VK_PIPELINE_STAGE_2_ALL_COMMANDS_BIT
      (_renderSemaphore (get_current_frame e)) in
  let submit := submit_info cmdBuff signalInfo waitInfo in
  VK_CHECK (ask (vkQueueSubmit2 (_graphicsQueue e) submit (_renderFence (get_current_frame e)))) >>
  (* present image *)
  let presentInfo :=
    {| pWaitSemaphores := [_renderSemaphore (get_current_frame e)];
       pSwapchains := [_swapchain e];
       pImageIndices := [swapchainImageIndex] |} in
  VK_CHECK (ask (vkQueuePresentKHR (_graphicsQueue e) presentInfo)) >>
  (* increase the number of frames drawn *)
  assign (fun e => with_frameNumber (int_incr (_frameNumber e)) e).

(** The body of [while (SDL_PollEvent(&e) != 0)]. *)
Definition handle_event (e : SDL_Event) (bQuit : bool) (p : Process) : bool * Process :=
  let bQuit := match e with SDL_QUIT => true | _ => bQuit end in
  let p :=
    match e with
    | SDL_WINDOWEVENT SDL_WINDOWEVENT_MINIMIZED => with_engine (with_stop_rendering true (engine p)) p
    | SDL_WINDOWEVENT SDL_WINDOWEVENT_RESTORED => with_engine (with_stop_rendering false (engine p)) p
    | _ => p
    end in
  let p :=
    match e with
    | SDL_KEYDOWN SDLK_SPACE => with_world (emit (fmt_print "Whas good!"%string) (world p)) p
    | _ => p
    end in
  let bQuit := match e with SDL_KEYDOWN SDLK_ESCAPE => true | _ => bQuit end in
  (bQuit, p).

(** The event loop: [SDL_PollEvent] hands out the pending events one by one
    and returns 0 when the queue is drained ([None], or nothing left). *)
Fixpoint poll_events (pending : list (option SDL_Event)) (bQuit : bool) (p : Process)
    : bool * Process :=
  match pending with
  | [] => (bQuit, with_world (with_events [] (world p)) p)
  | None :: later => (bQuit, with_world (with_events later (world p)) p)
  | Some e :: later =>
      let '(bQuit, p) := handle_event e bQuit p in poll_events later bQuit p
  end.

(** One turn of [while (!bQuit)]; returns the new [bQuit]. *)
Definition run_iteration (bQuit : bool) : M bool :=
  let* bQuit := (fun p => let '(b, p') := poll_events (events (world p)) bQuit p in (Ok b, p')) in
  let* e := this in
  (* do not draw if we are minimized *)
  if stop_rendering e then
    call (sleep_for_milliseconds 100) >> ret bQuit
  else
    draw >> ret bQuit.

(** [run]: the main loop, for at most [turns] turns.  The result is [true]
    when the loop was left because [bQuit] was set. *)
Fixpoint run_loop (turns : nat) (bQuit : bool) : M bool :=
  if bQuit then ret true
  else match turns with
       | O => ret false
       | S turns' => let* bQuit := run_iteration bQuit in run_loop turns' bQuit
       end.

Definition run (turns : nat) : M bool := run_loop turns false.

(** ** A concrete process

    An engine object as its default member initializers leave it (the
    members without one are zero here), and a driver that grants every
    request, builds swapchains of three images with the extent of the
    window and hands out image 1. *)
Definition blank_frame : FrameData :=
  {| _commandPool := 0%N; _mainCommandBuffer := 0%N; _swapchainSemaphore := 0%N;
     _renderSemaphore := 0%N; _renderFence := 0%N; _deletionQueue := {| deletors := [] |} |}.

Definition new_engine : VulkanEngine :=
  {| _isInitialized := false; _frameNumber := 0; stop_rendering := false;
     _windowExtent := {| width := 1700; height := 900 |};
     _instance := 0%N; _debugMessenger := 0%N; _chosenGPU := 0%N; _device := 0%N;
     _surface := 0%N; _swapchain := 0%N; _swapchainImageFormat := VK_FORMAT_B8G8R8A8_UNORM;
     _swapchainImages := []; _swapchainImageViews := [];
     _swapchainExtent := {| width := 0; height := 0 |};
     _frames := (blank_frame, blank_frame); _graphicsQueue := 0%N; _graphicsQueueFamily := 0%N;
     _window := nullptr; _mainDeletionQueue := {| deletors := [] |}; _allocator := 0%N;
     _drawImage := {| image := 0%N; imageView := 0%N; allocation := 0%N;
                      imageExtent := {| width3 := 0; height3 := 0; depth3 := 0 |};
                      imageFormat := VK_FORMAT_B8G8R8A8_UNORM |};
     _drawExtent := {| width := 0; height := 0 |} |}.

Definition granted : Reply :=
  {| result := VK_SUCCESS; imageIndex := 1; imageCount := 3;
     chosenExtent := {| width := 1700; height := 900 |} |}.

Definition boot_with (answers : nat -> Reply) (pending : list (option SDL_Event)) : Process :=
  {| loadedEngine := None;
     engine := new_engine;
     world := {| calls := []; served := 0; fences := ∅; next_handle := 1; oracle := answers;
                 events := pending |} |}.

Definition boot : Process := boot_with (fun _ => granted) [].

(** The calls a run has added to the log. *)
Definition calls_since (p p' : Process) : list Call :=
  drop (length (calls (world p))) (calls (world p')).

(** The process as a run leaves it, whatever its outcome. *)
Definition state_after {A} (m : M A) (p : Process) : Process := snd (m p).

(** ** Vocabulary of the properties *)

(** Where a kind of call sits in a log. *)
Definition views_before_chain (cs : list Call) : Prop :=
  forall i j device swapchain device' view,
    cs !! i = Some (vkDestroySwapchainKHR device swapchain) ->
    cs !! j = Some (vkDestroyImageView device' view) ->
    (j < i)%nat.

(** An engine with a swapchain of two images. *)
Definition two_views : Process :=
  Eval vm_compute in
  with_engine
    (with_swapchainImageViews [12%N; 13%N]
       (with_swapchainImages [10%N; 11%N]
          (with_swapchain 9%N (with_device 6%N new_engine)))) boot.

(** The engine after a completed [init] on the granting driver. *)
Definition ready : Process := Eval vm_compute in state_after (init 1%N) boot.

(** The same engine with transient resources parked in the per-frame
    queues: an image and then its view on slot 0, a view on slot 1. *)
Definition busy : Process :=
  Eval vm_compute in
  state_after
    (assign_frame 0 (fun f => with_deletionQueue
                                (push_function [vkDestroyImageView 6 42]
                                   (push_function [vmaDestroyImage 9 40 41]
                                      (_deletionQueue f))) f) >>
     assign_frame 1 (fun f => with_deletionQueue
                                (push_function [vkDestroyImageView 6 43]
                                   (_deletionQueue f)) f))
    ready.

(** An engine initialized on a driver that grants everything up to the
    first image acquisition (the 27th call) and answers that one with
    [VK_ERROR_OUT_OF_DATE_KHR]. *)
Definition out_of_date : Reply :=
  {| result := VK_ERROR_OUT_OF_DATE_KHR; imageIndex := 1; imageCount := 3;
     chosenExtent := {| width := 1700; height := 900 |} |}.

Definition stale : Process :=
  Eval vm_compute in
  state_after (init 1%N)
    (boot_with (fun n => if (n =? 26)%nat then out_of_date else granted) []).

(** The calls of a frame that [draw] completes on engine [e], when image
    [i] of the swapchain, [img], was acquired: up to the command buffer
    reset, the recording, and submit with present. *)
Definition frame_prologue (e : VulkanEngine) (i : N) : list Call :=
  let slot := get_current_frame e in
  [vkWaitForFences (_device e) (_renderFence slot) true 1000000000 VK_SUCCESS]
  ++ concat (rev (deletors (_deletionQueue slot)))
  ++ [vkResetFences (_device e) (_renderFence slot) VK_SUCCESS;
      vkAcquireNextImageKHR (_device e) (_swapchain e) 1000000000
        (_swapchainSemaphore slot) nullptr i VK_SUCCESS;
      vkResetCommandBuffer (_mainCommandBuffer slot) 0 VK_SUCCESS].

Definition frame_recording (e : VulkanEngine) (img : VkImage) : list Call :=
  let cmd := _mainCommandBuffer (get_current_frame e) in
  let target := image (_drawImage e) in
  [vkBeginCommandBuffer cmd VK_COMMAND_BUFFER_USAGE_ONE_TIME_SUBMIT_BIT VK_SUCCESS;
   transition_image cmd target VK_IMAGE_LAYOUT_UNDEFINED VK_IMAGE_LAYOUT_GENERAL;
   vkCmdClearColorImage cmd target VK_IMAGE_LAYOUT_GENERAL (_frameNumber e)
     VK_IMAGE_ASPECT_COLOR_BIT;
   transition_image cmd target VK_IMAGE_LAYOUT_GENERAL VK_IMAGE_LAYOUT_TRANSFER_SRC_OPTIMAL;
   transition_image cmd img VK_IMAGE_LAYOUT_UNDEFINED VK_IMAGE_LAYOUT_TRANSFER_DST_OPTIMAL;
   copy_image_to_image cmd target img
     {| width := width3 (imageExtent (_drawImage e));
        height := height3 (imageExtent (_drawImage e)) |}
     (_swapchainExtent e);
   transition_image cmd img VK_IMAGE_LAYOUT_TRANSFER_DST_OPTIMAL
     VK_IMAGE_LAYOUT_PRESENT_SRC_KHR;
   vkEndCommandBuffer cmd VK_SUCCESS].

Definition frame_submission (e : VulkanEngine) (i : N) : list Call :=
  let slot := get_current_frame e in
  [vkQueueSubmit2 (_graphicsQueue e)
     {| pWaitSemaphoreInfos :=
          [{| semaphore := _swapchainSemaphore slot;
              stageMask := VK_PIPELINE_STAGE_2_COLOR_ATTACHMENT_OUTPUT_BIT_KHR |}];
        pCommandBufferInfos := [_mainCommandBuffer slot];
        pSignalSemaphoreInfos :=
          [{| semaphore := _renderSemaphore slot;
              stageMask := VK_PIPELINE_STAGE_2_ALL_COMMANDS_BIT |}] |}
     (_renderFence slot) VK_SUCCESS;
   vkQueuePresentKHR (_graphicsQueue e)
     {| pWaitSemaphores := [_renderSemaphore slot];
        pSwapchains := [_swapchain e];
        pImageIndices := [i] |}
     VK_SUCCESS].

(** The engine after a completed frame: the slot's queue is flushed, the
    draw extent is set and the frame counter has moved on. *)
Definition frame_done (e : VulkanEngine) : VulkanEngine :=
  with_frameNumber (int_incr (_frameNumber e))
    (with_drawExtent
       {| width := width3 (imageExtent (_drawImage e));
          height := height3 (imageExtent (_drawImage e)) |}
       (with_frames
          (set_frame_at (current_index e)
             (with_deletionQueue {| deletors := [] |} (get_current_frame e))
             (_frames e)) e)).

(** An engine object as its constructor leaves it (vk_engine.h): the
    members with a default initializer have that value and the three
    deletion queues are empty; the other members hold anything. *)
Definition default_constructed (e : VulkanEngine) : Prop :=
  _isInitialized e = false
  /\ _frameNumber e = 0
  /\ stop_rendering e = false
  /\ _windowExtent e = {| width := 1700; height := 900 |}
  /\ _window e = nullptr
  /\ deletors (_deletionQueue (frame_at (_frames e) 0)) = []
  /\ deletors (_deletionQueue (frame_at (_frames e) 1)) = []
  /\ deletors (_mainDeletionQueue e) = [].



(** An initialized engine whose window is minimized, left alone for two
    turns (a space key press in the second) and then restored. *)
Definition minimized_then_restored : Process :=
  Eval vm_compute in
  with_world
    (with_events
       [Some (SDL_WINDOWEVENT SDL_WINDOWEVENT_MINIMIZED); None;
        None;
        Some (SDL_KEYDOWN SDLK_SPACE); None;
        Some (SDL_WINDOWEVENT SDL_WINDOWEVENT_RESTORED); None]
       (world ready)) ready.


(** An initialized engine whose slot 0 fence was reset with no submission
    to signal it again. *)
Definition never_signaled : Process :=
  Eval vm_compute in
  with_world (emit (vkResetFences 6 24 VK_SUCCESS) (world ready)) ready.

(** The events that one run of [while (SDL_PollEvent(&e) != 0)] handles:
    those pending up to the first time the queue is found empty; and what
    is left pending for the later turns. *)
Fixpoint batch (pending : list (option SDL_Event)) : list SDL_Event :=
  match pending with
  | Some e :: later => e :: batch later
  | _ => []
  end.

Fixpoint after_batch (pending : list (option SDL_Event)) : list (option SDL_Event) :=
  match pending with
  | Some _ :: later => after_batch later
  | None :: later => later
  | [] => []
  end.

(** The events that ask to leave the loop, those that are greeted, and
    those that suspend or resume rendering. *)
Definition quits (e : SDL_Event) : bool :=
  match e with
  | SDL_QUIT | SDL_KEYDOWN SDLK_ESCAPE => true
  | _ => false
  end.

Definition greeted (e : SDL_Event) : bool :=
  match e with
  | SDL_KEYDOWN SDLK_SPACE => true
  | _ => false
  end.

Definition changes_window (e : SDL_Event) : bool :=
  match e with
  | SDL_WINDOWEVENT SDL_WINDOWEVENT_MINIMIZED | SDL_WINDOWEVENT SDL_WINDOWEVENT_RESTORED => true
  | _ => false
  end.


(** The calls of a whole frame. *)
Definition frame_calls (e : VulkanEngine) (i : N) (img : VkImage) : list Call :=
  frame_prologue e i ++ frame_recording e img ++ frame_submission e i.


(** ** Vocabulary of the further properties *)

(** What the engine makes of a logged call: [Some ok] for a call whose
    outcome it checks ([.value()] of a vk-bootstrap result, [VK_CHECK] of
    a [VkResult]), [ok] telling whether the check passed; [None] for a
    call whose outcome it never looks at. *)
Definition verdict (c : Call) : option bool :=
  match c with
  | vkb_InstanceBuilder_build _ _ _ ok
  | vkb_PhysicalDeviceSelector_select _ _ ok
  | vkb_DeviceBuilder_build _ _ ok
  | vkb_get_queue _ _ ok
  | vkb_get_queue_index _ _ ok
  | vkb_SwapchainBuilder_build _ _ _ _ _ _ _ _ _ _ ok
  | vkb_Swapchain_get_images _ _ ok
  | vkb_Swapchain_get_image_views _ _ ok => Some ok
  | vkCreateImageView _ _ _ _ _ r
  | vkCreateCommandPool _ _ _ r
  | vkAllocateCommandBuffers _ _ _ _ r
  | vkCreateFence _ _ _ r
  | vkCreateSemaphore _ _ r
  | vkWaitForFences _ _ _ _ r
  | vkResetFences _ _ r
  | vkAcquireNextImageKHR _ _ _ _ _ _ r
  | vkQueueSubmit2 _ _ _ r
  | vkQueuePresentKHR _ _ r
  | vkResetCommandBuffer _ _ r
  | vkBeginCommandBuffer _ _ r
  | vkEndCommandBuffer _ r => Some (r =? VK_SUCCESS)
  | _ => None
  end.

(** An engine initialized on a driver that answers the first image
    acquisition (the 27th call) with success and an index past the three
    images of the swapchain. *)
Definition off_range : Process :=
  Eval vm_compute in
  state_after (init 1%N)
    (boot_with (fun n => if (n =? 26)%nat
                         then {| result := VK_SUCCESS; imageIndex := 3; imageCount := 3;
                                 chosenExtent := {| width := 1700; height := 900 |} |}
                         else granted) []).

(** A rendering engine at rest between two turns of the main loop: not
    suspended, no event pending, nothing parked in the per-frame queues
    (no code of the engine pushes to them), two different render fences of
    which none is left unsignaled without a submission, and a driver that
    grants every request and hands out indices of swapchain images. *)
Definition steady (p : Process) : Prop :=
  let e := engine p in
  let w := world p in
  stop_rendering e = false
  /\ events w = []
  /\ deletors (_deletionQueue (frame_at (_frames e) 0)) = []
  /\ deletors (_deletionQueue (frame_at (_frames e) 1)) = []
  /\ _renderFence (frame_at (_frames e) 0) <> _renderFence (frame_at (_frames e) 1)
  /\ fences w !! _renderFence (frame_at (_frames e) 0) <> Some Unsignaled
  /\ fences w !! _renderFence (frame_at (_frames e) 1) <> Some Unsignaled
  /\ (forall n, result (oracle w n) = VK_SUCCESS)
  /\ (forall n, (N.to_nat (imageIndex (oracle w n)) < length (_swapchainImages e))%nat).

(** The frames of consecutive turns that complete, from engine [e] on, by
    the swapchain image acquired in each: every frame starts from the
    engine as the frame before left it. *)
Fixpoint frames_from (e : VulkanEngine) (acquired : list (N * VkImage)) : list (list Call) :=
  match acquired with
  | [] => []
  | (i, img) :: later => frame_calls e i img :: frames_from (frame_done e) later
  end.

(** An initialized engine whose user closes the window and presses the
    space key in the same batch of events; more events would follow. *)
Definition closing : Process :=
  Eval vm_compute in
  with_world
    (with_events
       [Some SDL_QUIT; Some (SDL_KEYDOWN SDLK_SPACE); None;
        Some (SDL_KEYDOWN SDLK_SPACE); None]
       (world ready)) ready.

(** An initialized engine whose window is minimized and restored within
    one batch of events. *)
Definition flickering : Process :=
  Eval vm_compute in
  with_world
    (with_events
       [Some (SDL_WINDOWEVENT SDL_WINDOWEVENT_RESTORED);
        Some (SDL_WINDOWEVENT SDL_WINDOWEVENT_MINIMIZED);
        Some (SDL_KEYDOWN SDLK_OTHER); None]
       (world ready)) ready.

(** * Properties *)

(** ** DeletionQueue *)

Section DeletionQueueFacts.
Context {F W : Type} (invoke : F -> W -> W).

Lemma call_in_order_app (xs ys : list F) (w : W) :
    call_in_order invoke (xs ++ ys) w = call_in_order invoke ys (call_in_order invoke xs w).
  Proof. revert w. induction xs as [|x xs IH]; intros w; simpl; [reflexivity | apply IH]. Qed.

Lemma deletors_pushed (fs : list F) (q : DeletionQueue F) :
    deletors (fold_left (fun q f => push_function f q) fs q) = deletors q ++ fs.
  Proof.
    revert q. induction fs as [|f fs IH]; intros q; simpl.
    - symmetry. apply app_nil_r.
    - rewrite IH. simpl. rewrite <- app_assoc. reflexivity.
  Qed.

Lemma flush_pushed (fs : list F) (q : DeletionQueue F) (w : W) :
    flush invoke (fold_left (fun q f => push_function f q) fs q) w
    = (call_in_order invoke (rev fs ++ rev (deletors q)) w, {| deletors := [] |}).
  Proof. unfold flush. rewrite deletors_pushed, rev_app_distr. reflexivity. Qed.
End DeletionQueueFacts.

Lemma record_call_in_order {F : Type} (fs log : list F) :
  call_in_order record_call fs log = log ++ fs.
Proof.
  revert log. induction fs as [|f fs IH]; intros log; simpl.
  - symmetry. apply app_nil_r.
  - rewrite IH. unfold record_call. rewrite <- app_assoc. reflexivity.
Qed.

(** C2.  Push any sequence of deletors onto a new queue and flush once: the
    log of the deletors that ran is the pushed sequence reversed (each one
    once, last pushed first); whatever the deletors do, the flush is their
    calls in that order and leaves the queue empty; flushing again, or
    flushing a queue nothing was pushed on, calls nothing. *)
Theorem DeletionQueue_flush_reverse_of_push {F : Type} (pushed : list F) :
  let q := fold_left (fun q f => push_function f q) pushed {| deletors := [] |} in
  flush record_call q [] = (rev pushed, {| deletors := [] |})
  /\ (forall (W : Type) (invoke : F -> W -> W) (w : W),
        flush invoke q w = (call_in_order invoke (rev pushed) w, {| deletors := [] |}))
  /\ (forall (W : Type) (invoke : F -> W -> W) (w w' : W),
        flush invoke (snd (flush invoke q w)) w' = (w', {| deletors := [] |}))
  /\ (forall (W : Type) (invoke : F -> W -> W) (w : W),
        flush invoke {| deletors := [] |} w = (w, {| deletors := [] |})).
Proof.
  intros q. subst q. repeat split.
  - rewrite flush_pushed. simpl. rewrite app_nil_r, record_call_in_order. reflexivity.
  - intros W invoke w. rewrite flush_pushed. simpl. rewrite app_nil_r. reflexivity.
Qed.

Example flush_three :
  flush record_call
    (push_function 3%nat (push_function 2%nat (push_function 1%nat {| deletors := [] |}))) []
  = ([3%nat; 2%nat; 1%nat], {| deletors := [] |}).
Proof. reflexivity. Qed.

(** ** The monad and the log *)

Lemma with_world_same (p : Process) : with_world (world p) p = p.
Proof. destruct p; reflexivity. Qed.

Lemma calls_emit (c : Call) (w : World) : calls (emit c w) = calls w ++ [c].
Proof. reflexivity. Qed.

Lemma calls_invoke_deletor (d : list Call) (w : World) :
  calls (invoke_deletor d w) = calls w ++ d.
Proof.
  unfold invoke_deletor. revert w. induction d as [|c d IH]; intros w; simpl.
  - symmetry. apply app_nil_r.
  - rewrite IH, calls_emit, <- app_assoc. reflexivity.
Qed.

Lemma calls_call_in_order (ds : list (list Call)) (w : World) :
  calls (call_in_order invoke_deletor ds w) = calls w ++ concat ds.
Proof.
  revert w. induction ds as [|d ds IH]; intros w; simpl.
  - symmetry. apply app_nil_r.
  - rewrite IH, calls_invoke_deletor, <- app_assoc. reflexivity.
Qed.

Lemma invoke_deletor_app (d1 d2 : list Call) (w : World) :
  invoke_deletor (d1 ++ d2) w = invoke_deletor d2 (invoke_deletor d1 w).
Proof. unfold invoke_deletor. apply fold_left_app. Qed.

Lemma calls_since_app (p p' : Process) (cs : list Call) :
  calls (world p') = calls (world p) ++ cs -> calls_since p p' = cs.
Proof. unfold calls_since. intros ->. apply drop_app_length. Qed.

(** ** destroy_swapchain *)

Lemma destroy_views_loop (todo done : list N) (p : Process) :
  _swapchainImageViews (engine p) = done ++ todo ->
  for_from (length done) (length todo)
    (fun i => let* e := this in
              let* view := at_index (_swapchainImageViews e) i in
              call (vkDestroyImageView (_device e) view)) p
  = (Ok tt, with_world
              (invoke_deletor (map (vkDestroyImageView (_device (engine p))) todo) (world p)) p).
Proof.
  revert done p. induction todo as [|v todo IH]; intros done p Hviews.
  - simpl. unfold ret, invoke_deletor. simpl. rewrite with_world_same. reflexivity.
  - simpl for_from. unfold bind at 1. unfold bind at 1. unfold this at 1.
    unfold bind at 1. unfold at_index.
    rewrite Hviews, list_lookup_middle by reflexivity.
    unfold ret at 1. unfold call at 1.
    specialize (IH (done ++ [v])
                  (with_world (emit (vkDestroyImageView (_device (engine p)) v) (world p)) p)).
    rewrite length_app, Nat.add_1_r in IH. apply IH.
    simpl. rewrite Hviews, <- app_assoc. reflexivity.
Qed.

Lemma destroy_swapchain_runs (p : Process) :
  destroy_swapchain p
  = (Ok tt, with_world
              (invoke_deletor
                 (vkDestroySwapchainKHR (_device (engine p)) (_swapchain (engine p))
                  :: map (vkDestroyImageView (_device (engine p)))
                       (_swapchainImageViews (engine p)))
                 (world p)) p).
Proof.
  unfold destroy_swapchain. unfold bind at 1. unfold this at 1.
  unfold bind at 1. unfold call at 1.
  pose proof (destroy_views_loop (_swapchainImageViews (engine p)) []
                (with_world (emit (vkDestroySwapchainKHR (_device (engine p))
                                     (_swapchain (engine p))) (world p)) p)) as H.
  simpl in H. rewrite H by reflexivity. reflexivity.
Qed.

(** C3, as the code has it: [destroy_swapchain] destroys the chain object
    first and then each image view, in index order, and makes no other
    call: none on the images the chain owns.  It cannot fail, and it
    leaves the engine's members as they were. *)
Theorem destroy_swapchain_chain_then_views (p : Process) :
  let e := engine p in
  exists p',
    destroy_swapchain p = (Ok tt, p')
    /\ engine p' = e
    /\ calls_since p p'
       = vkDestroySwapchainKHR (_device e) (_swapchain e)
         :: map (vkDestroyImageView (_device e)) (_swapchainImageViews e).
Proof.
  intros e. rewrite destroy_swapchain_runs. eexists. split; [reflexivity|].
  split; [reflexivity|].
  apply calls_since_app. exact (calls_invoke_deletor (_ :: _) (world p)).
Qed.

(** C3, as claimed (views first, chain afterwards), fails on an engine
    with two image views: the chain is destroyed at position 0 of the log
    and the views at positions 1 and 2. *)
Lemma destroy_swapchain_views_not_first :
  calls_since two_views (state_after destroy_swapchain two_views)
  = [vkDestroySwapchainKHR 6 9; vkDestroyImageView 6 12; vkDestroyImageView 6 13]
  /\ ~ views_before_chain (calls_since two_views (state_after destroy_swapchain two_views)).
Proof.
  assert (calls_since two_views (state_after destroy_swapchain two_views)
          = [vkDestroySwapchainKHR 6 9; vkDestroyImageView 6 12; vkDestroyImageView 6 13]) as E
    by (vm_compute; reflexivity).
  split; [exact E|]. rewrite E. intros H.
  specialize (H 0%nat 1%nat 6%N 9%N 6%N 12%N eq_refl eq_refl). lia.
Qed.

(** ** Running the engine symbolically *)

(** Unfolds the monad, the member accesses and the straight-line engine
    code; loops over data and the driver's tables stay folded. *)
Ltac engine_eval :=
  cbv beta iota zeta delta
    [bind ret abort undefined this assign assert is_nullptr call ask ask_ok fresh VK_CHECK
     value_or_abort at_index
     flush_frame flush_main assign_frame flush frame_at set_frame_at get_current_frame
     current_index
     vkWaitForFences_ vkAcquireNextImageKHR_ draw_background for_from FRAME_OVERLAP
     fence_create_info command_pool_create_info command_buffer_begin_info
     semaphore_submit_info submit_info
     loadedEngine engine world with_loadedEngine with_engine with_world
     _isInitialized _frameNumber stop_rendering _windowExtent _instance _debugMessenger
     _chosenGPU _device _surface _swapchain _swapchainImageFormat _swapchainImages
     _swapchainImageViews _swapchainExtent _frames _graphicsQueue _graphicsQueueFamily
     _window _mainDeletionQueue _allocator _drawImage _drawExtent
     with_isInitialized with_frameNumber with_stop_rendering with_instance
     with_debugMessenger with_chosenGPU with_device with_surface with_swapchain
     with_swapchainImageFormat with_swapchainImages with_swapchainImageViews
     with_swapchainExtent with_frames with_graphicsQueue with_graphicsQueueFamily
     with_window with_mainDeletionQueue with_allocator with_drawImage with_drawExtent
     _commandPool _mainCommandBuffer _swapchainSemaphore _renderSemaphore _renderFence
     _deletionQueue with_commandPool with_mainCommandBuffer with_swapchainSemaphore
     with_renderSemaphore with_renderFence with_deletionQueue
     fst snd].

Tactic Notation "engine_eval" "in" hyp(H) :=
  cbv beta iota zeta delta
    [bind ret abort undefined this assign assert is_nullptr call ask ask_ok fresh VK_CHECK
     value_or_abort at_index
     flush_frame flush_main assign_frame flush frame_at set_frame_at get_current_frame
     current_index
     vkWaitForFences_ vkAcquireNextImageKHR_ draw_background for_from FRAME_OVERLAP
     fence_create_info command_pool_create_info command_buffer_begin_info
     semaphore_submit_info submit_info
     loadedEngine engine world with_loadedEngine with_engine with_world
     _isInitialized _frameNumber stop_rendering _windowExtent _instance _debugMessenger
     _chosenGPU _device _surface _swapchain _swapchainImageFormat _swapchainImages
     _swapchainImageViews _swapchainExtent _frames _graphicsQueue _graphicsQueueFamily
     _window _mainDeletionQueue _allocator _drawImage _drawExtent
     with_isInitialized with_frameNumber with_stop_rendering with_instance
     with_debugMessenger with_chosenGPU with_device with_surface with_swapchain
     with_swapchainImageFormat with_swapchainImages with_swapchainImageViews
     with_swapchainExtent with_frames with_graphicsQueue with_graphicsQueueFamily
     with_window with_mainDeletionQueue with_allocator with_drawImage with_drawExtent
     _commandPool _mainCommandBuffer _swapchainSemaphore _renderSemaphore _renderFence
     _deletionQueue with_commandPool with_mainCommandBuffer with_swapchainSemaphore
     with_renderSemaphore with_renderFence with_deletionQueue
     fst snd] in H.

(** ** cleanup *)

Lemma cleanup_not_initialized (p : Process) :
  _isInitialized (engine p) = false -> cleanup p = (Ok tt, with_loadedEngine None p).
Proof.
  intros H. unfold cleanup. unfold bind at 1. unfold this at 1.
  rewrite H. reflexivity.
Qed.

(** Splits a process into its members, so that member accesses compute. *)
Ltac open_process p :=
  let l := fresh "loaded" in
  let e := fresh "e" in
  let w := fresh "w" in
  destruct p as [l e w];
  destruct e as [isInit frameNo stopped windowExtent instance messenger gpu device surface
                 swapchain format images views swapExtent frames queue family window mainQ
                 allocator drawImage drawExtent];
  destruct frames as [[pool0 cmd0 acquired0 rendered0 fence0 queue0]
                      [pool1 cmd1 acquired1 rendered1 fence1 queue1]].

(** Reads the log of a world built from [emit], deletors and flushes. *)
Ltac read_log :=
  repeat first [ rewrite calls_emit | rewrite calls_invoke_deletor
               | rewrite calls_call_in_order ];
  repeat rewrite <- app_assoc.

(** C5.  On an initialized engine [cleanup] first waits for the device to
    be idle; then, slot by slot, destroys the slot's pool, fence and
    semaphores and flushes the slot's deletion queue (its deletors in
    reverse push order); then flushes the global queue, again in reverse
    push order, so the deferred per-frame releases all come before the
    global ones; then tears down swapchain, surface, device, instance and
    window.  It cannot fail; it leaves the three queues empty and the
    global engine pointer null. *)
Theorem cleanup_waits_idle_then_flushes (p : Process) :
  _isInitialized (engine p) = true ->
  let e := engine p in
  let f0 := frame_at (_frames e) 0 in
  let f1 := frame_at (_frames e) 1 in
  exists p',
    cleanup p = (Ok tt, p')
    /\ calls_since p p'
       = [vkDeviceWaitIdle (_device e)]
         ++ [vkDestroyCommandPool (_device e) (_commandPool f0);
             vkDestroyFence (_device e) (_renderFence f0);
             vkDestroySemaphore (_device e) (_renderSemaphore f0);
             vkDestroySemaphore (_device e) (_swapchainSemaphore f0)]
         ++ concat (rev (deletors (_deletionQueue f0)))
         ++ [vkDestroyCommandPool (_device e) (_commandPool f1);
             vkDestroyFence (_device e) (_renderFence f1);
             vkDestroySemaphore (_device e) (_renderSemaphore f1);
             vkDestroySemaphore (_device e) (_swapchainSemaphore f1)]
         ++ concat (rev (deletors (_deletionQueue f1)))
         ++ concat (rev (deletors (_mainDeletionQueue e)))
         ++ [vkDestroySwapchainKHR (_device e) (_swapchain e)]
         ++ map (vkDestroyImageView (_device e)) (_swapchainImageViews e)
         ++ [vkDestroySurfaceKHR (_instance e) (_surface e);
             vkDestroyDevice (_device e);
             vkb_destroy_debug_utils_messenger (_instance e) (_debugMessenger e);
             vkDestroyInstance (_instance e);
             SDL_DestroyWindow (_window e)]
    /\ deletors (_deletionQueue (frame_at (_frames (engine p')) 0)) = []
    /\ deletors (_deletionQueue (frame_at (_frames (engine p')) 1)) = []
    /\ deletors (_mainDeletionQueue (engine p')) = []
    /\ loadedEngine p' = None.
Proof.
  intros H. open_process p. simpl in H. subst isInit. unfold cleanup.
  engine_eval. rewrite destroy_swapchain_runs. engine_eval.
  eexists. split; [reflexivity|]. repeat split.
  apply calls_since_app. cbv [world]. read_log. reflexivity.
Qed.

Lemma cleanup_waits_idle_then_flushes_witness :
  _isInitialized (engine busy) = true
  /\ calls_since busy (state_after cleanup busy)
     = [vkDeviceWaitIdle 6;
        vkDestroyCommandPool 6 20; vkDestroyFence 6 24;
        vkDestroySemaphore 6 26; vkDestroySemaphore 6 25;
        vkDestroyImageView 6 42; vmaDestroyImage 9 40 41;
        vkDestroyCommandPool 6 22; vkDestroyFence 6 27;
        vkDestroySemaphore 6 29; vkDestroySemaphore 6 28;
        vkDestroyImageView 6 43;
        vkDestroyImageView 6 19; vmaDestroyImage 9 17 18; vmaDestroyAllocator 9;
        vkDestroySwapchainKHR 6 10;
        vkDestroyImageView 6 14; vkDestroyImageView 6 15; vkDestroyImageView 6 16;
        vkDestroySurfaceKHR 2 4; vkDestroyDevice 6;
        vkb_destroy_debug_utils_messenger 2 3; vkDestroyInstance 2; SDL_DestroyWindow 1].
Proof.
  split; [reflexivity|].
  destruct (cleanup_waits_idle_then_flushes busy eq_refl) as (p' & Hrun & Hcalls & _).
  unfold state_after. rewrite Hrun. cbn [snd]. rewrite Hcalls.
  vm_compute. reflexivity.
Defined.

(** ** init *)

Lemma fresh_list_runs (n : nat) (p : Process) :
  exists hs,
    fresh_list n p
    = (Ok hs, with_world (with_next_handle (next_handle (world p) + N.of_nat n)%N (world p)) p)
    /\ length hs = n.
Proof.
  revert p. induction n as [|n IH]; intros p.
  - exists []. split; [|reflexivity]. simpl. unfold ret. rewrite N.add_0_r.
    destruct p as [l e w]. destruct w. reflexivity.
  - destruct (IH (with_world (with_next_handle (next_handle (world p) + 1)%N (world p)) p))
      as (hs & Hrun & Hlen).
    exists (next_handle (world p) :: hs). split; [|simpl; congruence].
    simpl fresh_list. unfold bind at 1. unfold fresh at 1.
    unfold bind at 1. rewrite Hrun. unfold ret. simpl.
    replace (next_handle (world p) + 1 + N.of_nat n)%N
      with (next_handle (world p) + N.pos (Pos.of_succ_nat n))%N by lia.
    reflexivity.
Qed.

(** Like [engine_eval], and also through the driver's bookkeeping. *)
Ltac world_eval :=
  engine_eval;
  cbv beta iota zeta delta
    [emit reply fence_effect calls served fences next_handle oracle events
     with_calls with_served with_fences with_next_handle with_events].

Tactic Notation "world_eval" "in" hyp(H) :=
  engine_eval in H;
  cbv beta iota zeta delta
    [emit reply fence_effect calls served fences next_handle oracle events
     with_calls with_served with_fences with_next_handle with_events] in H.

Ltac open_world w :=
  destruct w as [log clock table next answers pending].

(** Takes the branch of the next check that goes on. *)
Ltac pass_check H :=
  match type of H with
  | context [if (?r =? VK_SUCCESS) then _ else _] =>
      let E := fresh "granted" in
      destruct (r =? VK_SUCCESS) eqn:E; [|discriminate H]
  end.

Ltac pass_fresh_list H :=
  match type of H with
  | context [fresh_list ?n ?P] =>
      let hs := fresh "handles" in
      let Hrun := fresh "Hrun" in
      let Hlen := fresh "Hlen" in
      destruct (fresh_list_runs n P) as (hs & Hrun & Hlen);
      rewrite Hrun in H; clear Hrun
  end.

(** Turns the checks that were passed into equations on the results. *)
Ltac results_granted H :=
  repeat match goal with
         | G : (?r =? VK_SUCCESS) = true |- _ =>
             apply Z.eqb_eq in G; rewrite ?G in H; clear G
         end.

(** What a completed [init] leaves behind. *)
Lemma init_Ok (self : N) (p p' : Process) :
  init self p = (Ok tt, p') ->
  let e := engine p in
  let e' := engine p' in
  let fence0 := _renderFence (frame_at (_frames e') 0) in
  let fence1 := _renderFence (frame_at (_frames e') 1) in
  loadedEngine p = None
  /\ loadedEngine p' = Some self
  /\ _isInitialized e' = true
  /\ _frameNumber e' = _frameNumber e
  /\ stop_rendering e' = stop_rendering e
  /\ _deletionQueue (frame_at (_frames e') 0) = _deletionQueue (frame_at (_frames e) 0)
  /\ _deletionQueue (frame_at (_frames e') 1) = _deletionQueue (frame_at (_frames e) 1)
  /\ fence0 <> fence1
  /\ fences (world p') !! fence0 = Some Signaled
  /\ fences (world p') !! fence1 = Some Signaled
  /\ vkCreateFence (_device e') VK_FENCE_CREATE_SIGNALED_BIT fence0 VK_SUCCESS
     ∈ calls (world p')
  /\ vkCreateFence (_device e') VK_FENCE_CREATE_SIGNALED_BIT fence1 VK_SUCCESS
     ∈ calls (world p')
  /\ (forall queue submit fence r, vkQueueSubmit2 queue submit fence r ∉ calls_since p p').
Proof.
  intros H. open_process p. open_world w.
  unfold init, init_vulkan, init_swapchain, create_swapchain, init_commands,
    init_sync_structures in H.
  destruct loaded; [discriminate H|].
  world_eval in H.
  repeat first [ pass_check H; world_eval in H | pass_fresh_list H; world_eval in H ].
  results_granted H.
  change (Z.land VK_FENCE_CREATE_SIGNALED_BIT VK_FENCE_CREATE_SIGNALED_BIT =? 0) with false in H.
  injection H as <-. cbv zeta.
  cbv [loadedEngine engine world _isInitialized _frameNumber stop_rendering _frames frame_at
       fst snd _deletionQueue _renderFence fences calls _device].
  do 7 (split; [reflexivity|]).
  split; [lia|].
  split; [rewrite lookup_insert_ne by lia; apply lookup_insert_eq|].
  split; [apply lookup_insert_eq|].
  split; [|split].
  - repeat first [ apply list_elem_of_here
                 | apply elem_of_app; first [ right; apply list_elem_of_here | left ] ].
  - repeat first [ apply list_elem_of_here
                 | apply elem_of_app; first [ right; apply list_elem_of_here | left ] ].
  - intros q s f r Hin.
    erewrite calls_since_app in Hin
      by (cbv [world calls]; rewrite <- ?app_assoc; cbn [app]; reflexivity).
    repeat (apply elem_of_cons in Hin; destruct Hin as [Hin|Hin]; [discriminate Hin|]).
    apply elem_of_nil in Hin. exact Hin.
Qed.

Lemma init_twice_aborts (self : N) (p : Process) :
  loadedEngine p <> None -> init self p = (Abort, p).
Proof.
  intros H. unfold init. unfold bind at 1. unfold bind at 1.
  destruct (loadedEngine p); [reflexivity | congruence].
Qed.

(** C9, as the code has it: [init] fails its assertion whenever the global
    engine pointer is not null, which it is from a completed [init] on (so
    a second [init], on this or on another engine object, aborts before it
    does anything); and [cleanup] on an engine whose [_isInitialized] is
    false makes no call at all and only clears the global pointer. *)
Theorem init_asserts_null_cleanup_guarded (self : N) (p : Process) :
  (loadedEngine p <> None -> init self p = (Abort, p))
  /\ (forall p', init self p = (Ok tt, p') ->
                 loadedEngine p' = Some self
                 /\ _isInitialized (engine p') = true
                 /\ forall other, init other p' = (Abort, p'))
  /\ (_isInitialized (engine p) = false ->
      cleanup p = (Ok tt, with_loadedEngine None p)).
Proof.
  split; [apply init_twice_aborts|]. split; [|apply cleanup_not_initialized].
  intros p' H. destruct (init_Ok self p p' H) as (_ & Hloaded & Hinit & _).
  split; [exact Hloaded|]. split; [exact Hinit|].
  intros other. apply init_twice_aborts. rewrite Hloaded. discriminate.
Qed.

Lemma init_boot : init 1%N boot = (Ok tt, ready).
Proof. vm_compute. reflexivity. Qed.

Lemma init_asserts_null_cleanup_guarded_witness :
  init 2%N ready = (Abort, ready)
  /\ loadedEngine ready = Some 1%N
  /\ cleanup boot = (Ok tt, with_loadedEngine None boot).
Proof.
  destruct (init_asserts_null_cleanup_guarded 1%N boot) as (_ & Hinit & Hcleanup).
  destruct (Hinit ready init_boot) as (Hloaded & _ & Hagain).
  split; [apply Hagain|]. split; [exact Hloaded|].
  apply Hcleanup. reflexivity.
Defined.

(** C9, as claimed, fails in its last part: [cleanup] never clears
    [_isInitialized], so a second [cleanup] after a completed one runs the
    guarded body again and repeats every direct destroy call (the
    deletion queues, emptied by the first one, have nothing left to run). *)
Lemma cleanup_twice_destroys_twice :
  let once := state_after cleanup ready in
  let twice := state_after cleanup once in
  _isInitialized (engine once) = true
  /\ calls_since once twice
     = [vkDeviceWaitIdle 6;
        vkDestroyCommandPool 6 20; vkDestroyFence 6 24;
        vkDestroySemaphore 6 26; vkDestroySemaphore 6 25;
        vkDestroyCommandPool 6 22; vkDestroyFence 6 27;
        vkDestroySemaphore 6 29; vkDestroySemaphore 6 28;
        vkDestroySwapchainKHR 6 10;
        vkDestroyImageView 6 14; vkDestroyImageView 6 15; vkDestroyImageView 6 16;
        vkDestroySurfaceKHR 2 4; vkDestroyDevice 6;
        vkb_destroy_debug_utils_messenger 2 3; vkDestroyInstance 2; SDL_DestroyWindow 1]
  /\ calls_since once twice <> [].
Proof.
  cbv zeta.
  assert (calls_since (state_after cleanup ready)
            (state_after cleanup (state_after cleanup ready))
          = [vkDeviceWaitIdle 6;
             vkDestroyCommandPool 6 20; vkDestroyFence 6 24;
             vkDestroySemaphore 6 26; vkDestroySemaphore 6 25;
             vkDestroyCommandPool 6 22; vkDestroyFence 6 27;
             vkDestroySemaphore 6 29; vkDestroySemaphore 6 28;
             vkDestroySwapchainKHR 6 10;
             vkDestroyImageView 6 14; vkDestroyImageView 6 15; vkDestroyImageView 6 16;
             vkDestroySurfaceKHR 2 4; vkDestroyDevice 6;
             vkb_destroy_debug_utils_messenger 2 3; vkDestroyInstance 2;
             SDL_DestroyWindow 1]) as E by (vm_compute; reflexivity).
  split; [reflexivity|]. split; [exact E|]. rewrite E. discriminate.
Qed.

(** ** draw *)

(** Evaluates with the current slot known: [Hslot] says which one
    [_frameNumber % FRAME_OVERLAP] is. *)
Ltac slot_eval :=
  engine_eval;
  repeat (match goal with
          | Hslot : Z.to_nat _ = _ |- _ => rewrite !Hslot
          end; engine_eval).

(** Splits on the next check, with the result rewritten to success in the
    branch that goes on. *)
Ltac check_step :=
  match goal with
  | |- context [if (?r =? VK_SUCCESS) then _ else _] =>
      let E := fresh "E" in
      destruct (r =? VK_SUCCESS) eqn:E;
      [ apply Z.eqb_eq in E; rewrite ?E; slot_eval
      | apply Z.eqb_neq in E; slot_eval ]
  end.

(** Splits on whether the acquired index is within the swapchain images. *)
Ltac index_step :=
  match goal with
  | |- context [match ?l !! ?i with Some _ => _ | None => _ end] =>
      let E := fresh "E" in destruct (l !! i) eqn:E; slot_eval
  end.

(** Closes a goal about the calls a run has added. *)
Ltac log_goal :=
  apply calls_since_app; cbv [world]; read_log; cbn [app]; reflexivity.

(** C4.  Every [draw] starts by waiting on the current slot's fence, with
    a bound of one second, and stops there unless the wait reports
    success, which it does at once for a signaled fence and never for an
    unsignaled one.  Only then does it flush the slot's deletion queue (in
    reverse push order), then reset the fence, then acquire an image, then
    reset the slot's command buffer, then begin recording: each of these
    is reached only when everything before it succeeded, so nothing
    touches the command buffer before the fence has signalled. *)
Theorem draw_waits_flushes_resets_in_order (p : Process) :
  let e := engine p in
  let slot := get_current_frame e in
  let fence := _renderFence slot in
  let cmd := _mainCommandBuffer slot in
  let wait := vkWaitForFences (_device e) fence true 1000000000 in
  let flushed := concat (rev (deletors (_deletionQueue slot))) in
  let reset := vkResetFences (_device e) fence in
  let acquire := vkAcquireNextImageKHR (_device e) (_swapchain e) 1000000000
                   (_swapchainSemaphore slot) nullptr in
  let reset_cmd := vkResetCommandBuffer cmd 0 in
  let begin := vkBeginCommandBuffer cmd VK_COMMAND_BUFFER_USAGE_ONE_TIME_SUBMIT_BIT in
  let r_wait := wait_result (fences (world p)) fence (result (reply (world p))) in
  (fences (world p) !! fence = Some Signaled -> r_wait = VK_SUCCESS)
  /\ (fences (world p) !! fence = Some Unsignaled -> r_wait = VK_TIMEOUT)
  /\ exists o p',
       draw p = (o, p')
       /\ ((* the fence did not signal: nothing else happens *)
           (r_wait <> VK_SUCCESS /\ o = Abort /\ calls_since p p' = [wait r_wait])
           \/ (exists r, r <> VK_SUCCESS /\ o = Abort
                         /\ calls_since p p' = [wait VK_SUCCESS] ++ flushed ++ [reset r])
           \/ (exists i r, r <> VK_SUCCESS /\ o = Abort
                           /\ calls_since p p'
                              = [wait VK_SUCCESS] ++ flushed
                                ++ [reset VK_SUCCESS; acquire i r])
           \/ (exists i r, r <> VK_SUCCESS /\ o = Abort
                           /\ calls_since p p'
                              = [wait VK_SUCCESS] ++ flushed
                                ++ [reset VK_SUCCESS; acquire i VK_SUCCESS; reset_cmd r])
           \/ (exists i r rest,
                  calls_since p p'
                  = [wait VK_SUCCESS] ++ flushed
                    ++ [reset VK_SUCCESS; acquire i VK_SUCCESS; reset_cmd VK_SUCCESS; begin r]
                    ++ rest)).
Proof.
  cbv zeta. split; [|split].
  - unfold wait_result. intros ->. reflexivity.
  - unfold wait_result. intros ->. reflexivity.
  - destruct (draw p) as [o p'] eqn:Hdraw. exists o, p'. split; [reflexivity|].
    revert Hdraw. open_process p. unfold draw. engine_eval.
    destruct (Z.to_nat ((frameNo mod 2 ^ 32) mod Z.of_nat 2)) as [|i'] eqn:Hslot; slot_eval.
    all: check_step;
      [ check_step;
        [ check_step;
          [ check_step;
            [ repeat first [ check_step | index_step ];
              intros H; injection H as <- <-; do 4 right; eexists _, _, _; log_goal
            | intros H; injection H as <- <-; do 3 right; left; eexists _, _;
              split; [eassumption|]; split; [reflexivity|]; log_goal ]
          | intros H; injection H as <- <-; do 2 right; left; eexists _, _;
            split; [eassumption|]; split; [reflexivity|]; log_goal ]
        | intros H; injection H as <- <-; right; left; eexists;
          split; [eassumption|]; split; [reflexivity|]; log_goal ]
      | intros H; injection H as <- <-; left;
        split; [assumption|]; split; [reflexivity|]; log_goal ].
Qed.

Lemma draw_waits_flushes_resets_in_order_witness :
  (fences (world busy) !! 24%N = Some Signaled
   /\ wait_result (fences (world busy)) 24 (result (reply (world busy))) = VK_SUCCESS)
  /\ (fences (world never_signaled) !! 24%N = Some Unsignaled
      /\ wait_result (fences (world never_signaled)) 24
           (result (reply (world never_signaled))) = VK_TIMEOUT).
Proof.
  destruct (draw_waits_flushes_resets_in_order busy) as (Hsignaled & _ & _).
  destruct (draw_waits_flushes_resets_in_order never_signaled) as (_ & Hunsignaled & _).
  assert (fences (world busy) !! 24%N = Some Signaled) as H1 by (vm_compute; reflexivity).
  assert (fences (world never_signaled) !! 24%N = Some Unsignaled) as H2
    by (vm_compute; reflexivity).
  split; split; [exact H1 | exact (Hsignaled H1) | exact H2 | exact (Hunsignaled H2)].
Defined.

Example draw_never_signaled :
  fst (draw never_signaled) = Abort
  /\ calls_since never_signaled (state_after draw never_signaled)
     = [vkWaitForFences 6 24 true 1000000000 VK_TIMEOUT].
Proof. vm_compute. split; reflexivity. Qed.

(** C1, as the code has it: when the acquisition that follows the fence
    wait, the flush and the fence reset returns anything but success
    (out-of-date included), [draw] stops there.  It makes no further call:
    no idle wait, no destruction or rebuild of the swapchain, no second
    acquisition; the frame counter and the swapchain members are left as
    they were. *)
Theorem draw_acquire_failure_aborts (p p' : Process) (o : Outcome unit) (i : N) (r : Z) :
  let e := engine p in
  let slot := get_current_frame e in
  let attempt :=
    [vkWaitForFences (_device e) (_renderFence slot) true 1000000000 VK_SUCCESS]
    ++ concat (rev (deletors (_deletionQueue slot)))
    ++ [vkResetFences (_device e) (_renderFence slot) VK_SUCCESS;
        vkAcquireNextImageKHR (_device e) (_swapchain e) 1000000000
          (_swapchainSemaphore slot) nullptr i r] in
  draw p = (o, p') ->
  (exists rest, calls_since p p' = attempt ++ rest) ->
  r <> VK_SUCCESS ->
  o = Abort
  /\ calls_since p p' = attempt
  /\ _frameNumber (engine p') = _frameNumber e
  /\ _swapchain (engine p') = _swapchain e
  /\ _swapchainImages (engine p') = _swapchainImages e
  /\ _swapchainImageViews (engine p') = _swapchainImageViews e.
Proof.
  cbv zeta. revert o p'. open_process p. unfold draw. engine_eval.
  destruct (Z.to_nat ((frameNo mod 2 ^ 32) mod Z.of_nat 2)) as [|i'] eqn:Hslot; slot_eval.
  all: intros o p'.
  all: check_step.
  all: try check_step.
  all: try check_step.
  all: repeat first [ check_step | index_step ].
  all: intros Hdraw [rest Hlog] Hr; injection Hdraw as <- <-.
  all: erewrite calls_since_app in Hlog by (cbv [world]; read_log; cbn [app]; reflexivity).
  all: rewrite <- ?app_assoc in Hlog; cbn [app] in Hlog.
  all: simplify_eq; try congruence.
  all: try match goal with H : _ ++ _ = _ ++ _ |- _ => apply app_inv_head in H end.
  all: simplify_eq; try congruence.
  all: split; [reflexivity|]; split; [log_goal|]; repeat split.
Qed.

Lemma draw_stale : draw stale = (Abort, state_after draw stale).
Proof. vm_compute. reflexivity. Qed.

Lemma draw_acquire_failure_aborts_witness :
  VK_ERROR_OUT_OF_DATE_KHR <> VK_SUCCESS
  /\ draw stale = (Abort, state_after draw stale)
  /\ calls_since stale (state_after draw stale)
     = [vkWaitForFences 6 24 true 1000000000 VK_SUCCESS;
        vkResetFences 6 24 VK_SUCCESS;
        vkAcquireNextImageKHR 6 10 1000000000 25 nullptr 1 VK_ERROR_OUT_OF_DATE_KHR]
  /\ _frameNumber (engine (state_after draw stale)) = 0.
Proof.
  assert (VK_ERROR_OUT_OF_DATE_KHR <> VK_SUCCESS) as Hr by discriminate.
  split; [exact Hr|]. split; [exact draw_stale|].
  destruct (draw_acquire_failure_aborts stale (state_after draw stale) Abort 1%N
              VK_ERROR_OUT_OF_DATE_KHR draw_stale)
    as (_ & Hlog & Hframe & _).
  - exists []. vm_compute. reflexivity.
  - exact Hr.
  - split; [rewrite Hlog; vm_compute; reflexivity|].
    rewrite Hframe. reflexivity.
Defined.

(** C1, as claimed, fails on an initialized engine whose first acquisition
    is answered with [VK_ERROR_OUT_OF_DATE_KHR]: [draw] aborts on the spot,
    the log ends with the acquisition (no [vkDeviceWaitIdle], no swapchain
    destroyed or built, no second acquisition), and the loop does not go
    on to a next iteration. *)
Lemma draw_out_of_date_no_recovery :
  fst (draw stale) = Abort
  /\ calls_since stale (state_after draw stale)
     = [vkWaitForFences 6 24 true 1000000000 VK_SUCCESS;
        vkResetFences 6 24 VK_SUCCESS;
        vkAcquireNextImageKHR 6 10 1000000000 25 nullptr 1 VK_ERROR_OUT_OF_DATE_KHR]
  /\ (forall device, vkDeviceWaitIdle device ∉ calls_since stale (state_after draw stale))
  /\ fst (run 3 stale) = Abort
  /\ calls_since stale (state_after (run 3) stale)
     = calls_since stale (state_after draw stale).
Proof.
  assert (calls_since stale (state_after draw stale)
          = [vkWaitForFences 6 24 true 1000000000 VK_SUCCESS;
             vkResetFences 6 24 VK_SUCCESS;
             vkAcquireNextImageKHR 6 10 1000000000 25 nullptr 1 VK_ERROR_OUT_OF_DATE_KHR])
    as E by (vm_compute; reflexivity).
  split; [vm_compute; reflexivity|]. split; [exact E|]. split.
  - intros device. rewrite E. intros H.
    repeat (apply elem_of_cons in H; destruct H as [H|H]; [discriminate H|]).
    apply elem_of_nil in H. exact H.
  - split; vm_compute; reflexivity.
Qed.

Lemma call_in_order_concat (ds : list (list Call)) (w : World) :
  call_in_order invoke_deletor ds w = invoke_deletor (concat ds) w.
Proof.
  revert w. induction ds as [|d ds IH]; intros w; simpl; [reflexivity|].
  rewrite invoke_deletor_app. apply IH.
Qed.

(** What a completed [draw] has done. *)
Lemma draw_Ok (p p' : Process) :
  draw p = (Ok tt, p') ->
  let e := engine p in
  exists i img,
    _swapchainImages e !! N.to_nat i = Some img
    /\ world p'
       = invoke_deletor (frame_prologue e i ++ frame_recording e img ++ frame_submission e i)
           (world p)
    /\ engine p' = frame_done e
    /\ loadedEngine p' = loadedEngine p.
Proof.
  cbv zeta. revert p'. open_process p. unfold draw. engine_eval.
  destruct (Z.to_nat ((frameNo mod 2 ^ 32) mod Z.of_nat 2)) as [|i'] eqn:Hslot; slot_eval.
  all: intros p'.
  all: repeat first [ check_step | index_step ].
  all: intros H; try discriminate H; injection H as <-.
  all: eexists _, _; split; [eassumption|].
  all: unfold frame_prologue, frame_recording, frame_submission, frame_done.
  all: rewrite !invoke_deletor_app, <- call_in_order_concat.
  all: slot_eval.
  all: repeat split.
Qed.

(** C6.  In a frame that [draw] completes, image [i] having been acquired,
    the calls on the command buffer between its reset and the submission
    are exactly: begin with the one-time-submit flag; draw target from
    undefined to general; the drawing (a clear of the draw target, in
    general layout); draw target from general to transfer-source; the
    acquired swapchain image from undefined to transfer-destination; the
    copy of the draw target into that image; that image from
    transfer-destination to present; end. *)
Theorem draw_records_in_order (p p' : Process) :
  draw p = (Ok tt, p') ->
  let e := engine p in
  let cmd := _mainCommandBuffer (get_current_frame e) in
  let target := image (_drawImage e) in
  exists i img,
    _swapchainImages e !! N.to_nat i = Some img
    /\ calls_since p p'
       = frame_prologue e i
         ++ [vkBeginCommandBuffer cmd VK_COMMAND_BUFFER_USAGE_ONE_TIME_SUBMIT_BIT VK_SUCCESS;
             transition_image cmd target VK_IMAGE_LAYOUT_UNDEFINED VK_IMAGE_LAYOUT_GENERAL;
             vkCmdClearColorImage cmd target VK_IMAGE_LAYOUT_GENERAL (_frameNumber e)
               VK_IMAGE_ASPECT_COLOR_BIT;
             transition_image cmd target VK_IMAGE_LAYOUT_GENERAL
               VK_IMAGE_LAYOUT_TRANSFER_SRC_OPTIMAL;
             transition_image cmd img VK_IMAGE_LAYOUT_UNDEFINED
               VK_IMAGE_LAYOUT_TRANSFER_DST_OPTIMAL;
             copy_image_to_image cmd target img
               {| width := width3 (imageExtent (_drawImage e));
                  height := height3 (imageExtent (_drawImage e)) |}
               (_swapchainExtent e);
             transition_image cmd img VK_IMAGE_LAYOUT_TRANSFER_DST_OPTIMAL
               VK_IMAGE_LAYOUT_PRESENT_SRC_KHR;
             vkEndCommandBuffer cmd VK_SUCCESS]
         ++ frame_submission e i.
Proof.
  intros H. cbv zeta. destruct (draw_Ok p p' H) as (i & img & Himg & Hworld & _).
  exists i, img. split; [exact Himg|].
  apply calls_since_app. rewrite Hworld, calls_invoke_deletor. reflexivity.
Qed.

Lemma draw_busy : draw busy = (Ok tt, state_after draw busy).
Proof. vm_compute. reflexivity. Qed.

Lemma draw_records_in_order_witness :
  draw busy = (Ok tt, state_after draw busy)
  /\ exists i img,
       [11%N; 12%N; 13%N] !! N.to_nat i = Some img
       /\ calls_since busy (state_after draw busy)
          = frame_prologue (engine busy) i
            ++ [vkBeginCommandBuffer 21 1 0;
                transition_image 21 17 VK_IMAGE_LAYOUT_UNDEFINED VK_IMAGE_LAYOUT_GENERAL;
                vkCmdClearColorImage 21 17 VK_IMAGE_LAYOUT_GENERAL 0 1;
                transition_image 21 17 VK_IMAGE_LAYOUT_GENERAL
                  VK_IMAGE_LAYOUT_TRANSFER_SRC_OPTIMAL;
                transition_image 21 img VK_IMAGE_LAYOUT_UNDEFINED
                  VK_IMAGE_LAYOUT_TRANSFER_DST_OPTIMAL;
                copy_image_to_image 21 17 img {| width := 1700; height := 900 |}
                  {| width := 1700; height := 900 |};
                transition_image 21 img VK_IMAGE_LAYOUT_TRANSFER_DST_OPTIMAL
                  VK_IMAGE_LAYOUT_PRESENT_SRC_KHR;
                vkEndCommandBuffer 21 0]
            ++ frame_submission (engine busy) i.
Proof.
  split; [exact draw_busy|].
  exact (draw_records_in_order busy (state_after draw busy) draw_busy).
Defined.

Example draw_busy_log :
  calls_since busy (state_after draw busy)
  = [vkWaitForFences 6 24 true 1000000000 0;
     vkDestroyImageView 6 42; vmaDestroyImage 9 40 41;
     vkResetFences 6 24 0;
     vkAcquireNextImageKHR 6 10 1000000000 25 0 1 0;
     vkResetCommandBuffer 21 0 0;
     vkBeginCommandBuffer 21 1 0;
     transition_image 21 17 VK_IMAGE_LAYOUT_UNDEFINED VK_IMAGE_LAYOUT_GENERAL;
     vkCmdClearColorImage 21 17 VK_IMAGE_LAYOUT_GENERAL 0 1;
     transition_image 21 17 VK_IMAGE_LAYOUT_GENERAL VK_IMAGE_LAYOUT_TRANSFER_SRC_OPTIMAL;
     transition_image 21 12 VK_IMAGE_LAYOUT_UNDEFINED VK_IMAGE_LAYOUT_TRANSFER_DST_OPTIMAL;
     copy_image_to_image 21 17 12 {| width := 1700; height := 900 |}
       {| width := 1700; height := 900 |};
     transition_image 21 12 VK_IMAGE_LAYOUT_TRANSFER_DST_OPTIMAL
       VK_IMAGE_LAYOUT_PRESENT_SRC_KHR;
     vkEndCommandBuffer 21 0;
     vkQueueSubmit2 7
       {| pWaitSemaphoreInfos := [{| semaphore := 25; stageMask := 1024 |}];
          pCommandBufferInfos := [21%N];
          pSignalSemaphoreInfos := [{| semaphore := 26; stageMask := 65536 |}] |} 24 0;
     vkQueuePresentKHR 7
       {| pWaitSemaphores := [26%N]; pSwapchains := [10%N]; pImageIndices := [1%N] |} 0].
Proof. vm_compute. reflexivity. Qed.

Lemma fences_emit (c : Call) (w : World) : fences (emit c w) = fence_effect c (fences w).
Proof. reflexivity. Qed.

(** C7.  In a frame that [draw] completes, the last two calls are the
    submission and the present.  The submission is of the slot's command
    buffer, waits on the slot's image-acquired semaphore at the
    colour-attachment-output stage, signals the slot's render-complete
    semaphore at the all-commands stage and is tied to the slot's fence
    (which is pending afterwards); the present goes to the same graphics
    queue and waits on the render-complete semaphore alone, for the
    acquired image.  The frame counter then moves on by one ([int]
    increment, which is [+ 1] below [INT_MAX]). *)
Theorem draw_submits_presents_then_counts (p p' : Process) :
  draw p = (Ok tt, p') ->
  let e := engine p in
  let slot := get_current_frame e in
  exists i img,
    calls_since p p'
    = frame_prologue e i ++ frame_recording e img
      ++ [vkQueueSubmit2 (_graphicsQueue e)
            {| pWaitSemaphoreInfos :=
                 [{| semaphore := _swapchainSemaphore slot;
                     stageMask := VK_PIPELINE_STAGE_2_COLOR_ATTACHMENT_OUTPUT_BIT_KHR |}];
               pCommandBufferInfos := [_mainCommandBuffer slot];
               pSignalSemaphoreInfos :=
                 [{| semaphore := _renderSemaphore slot;
                     stageMask := VK_PIPELINE_STAGE_2_ALL_COMMANDS_BIT |}] |}
            (_renderFence slot) VK_SUCCESS;
          vkQueuePresentKHR (_graphicsQueue e)
            {| pWaitSemaphores := [_renderSemaphore slot];
               pSwapchains := [_swapchain e];
               pImageIndices := [i] |}
            VK_SUCCESS]
    /\ fences (world p') !! _renderFence slot = Some Pending
    /\ _frameNumber (engine p') = int_incr (_frameNumber e)
    /\ (_frameNumber e < INT_MAX -> _frameNumber (engine p') = _frameNumber e + 1).
Proof.
  intros H. cbv zeta. destruct (draw_Ok p p' H) as (i & img & _ & Hworld & Hengine & _).
  exists i, img. split; [|split; [|split]].
  - apply calls_since_app. rewrite Hworld, calls_invoke_deletor. reflexivity.
  - rewrite Hworld, !invoke_deletor_app. unfold frame_submission.
    cbn [invoke_deletor fold_left]. rewrite !fences_emit. cbn [fence_effect].
    change (VK_SUCCESS =? VK_SUCCESS) with true. cbv iota. apply lookup_insert_eq.
  - rewrite Hengine. reflexivity.
  - intros Hmax. rewrite Hengine. cbn [frame_done _frameNumber with_frameNumber].
    unfold int_incr. destruct (_frameNumber (engine p) + 1 <=? INT_MAX) eqn:E; [reflexivity|].
    apply Z.leb_gt in E. lia.
Qed.

Lemma draw_submits_presents_then_counts_witness :
  draw busy = (Ok tt, state_after draw busy)
  /\ _frameNumber (engine busy) < INT_MAX
  /\ (exists i img,
        calls_since busy (state_after draw busy)
        = frame_prologue (engine busy) i ++ frame_recording (engine busy) img
          ++ [vkQueueSubmit2 7
                {| pWaitSemaphoreInfos := [{| semaphore := 25; stageMask := 1024 |}];
                   pCommandBufferInfos := [21%N];
                   pSignalSemaphoreInfos := [{| semaphore := 26; stageMask := 65536 |}] |}
                24 VK_SUCCESS;
              vkQueuePresentKHR 7
                {| pWaitSemaphores := [26%N]; pSwapchains := [10%N];
                   pImageIndices := [i] |} VK_SUCCESS])
  /\ fences (world (state_after draw busy)) !! 24%N = Some Pending
  /\ _frameNumber (engine (state_after draw busy)) = 1.
Proof.
  assert (_frameNumber (engine busy) < INT_MAX) as Hmax by reflexivity.
  destruct (draw_submits_presents_then_counts busy (state_after draw busy) draw_busy)
    as (i & img & Hlog & Hfence & _ & Hnext).
  split; [exact draw_busy|]. split; [exact Hmax|]. split; [|split].
  - exists i, img. exact Hlog.
  - exact Hfence.
  - rewrite (Hnext Hmax). reflexivity.
Defined.

(** The driver's answers do not depend on what has been logged. *)
Lemma oracle_emit (c : Call) (w : World) : oracle (emit c w) = oracle w.
Proof. reflexivity. Qed.

Lemma oracle_invoke_deletor (d : list Call) (w : World) :
  oracle (invoke_deletor d w) = oracle w.
Proof.
  unfold invoke_deletor. revert w. induction d as [|c d IH]; intros w; simpl; [reflexivity|].
  rewrite IH. reflexivity.
Qed.

Lemma oracle_call_in_order (ds : list (list Call)) (w : World) :
  oracle (call_in_order invoke_deletor ds w) = oracle w.
Proof. rewrite call_in_order_concat. apply oracle_invoke_deletor. Qed.

(** [draw] runs to completion whenever the driver grants every request,
    hands out an image index within the swapchain, and the slot's fence is
    not one that nothing will ever signal. *)
Lemma draw_completes (p : Process) :
  (forall n, result (oracle (world p) n) = VK_SUCCESS) ->
  (forall n, (N.to_nat (imageIndex (oracle (world p) n))
              < length (_swapchainImages (engine p)))%nat) ->
  fences (world p) !! _renderFence (get_current_frame (engine p)) <> Some Unsignaled ->
  exists p', draw p = (Ok tt, p').
Proof.
  open_process p. unfold draw. engine_eval. intros Hres Hidx.
  destruct (Z.to_nat ((frameNo mod 2 ^ 32) mod Z.of_nat 2)) as [|i'] eqn:Hslot; slot_eval.
  all: intros Hfence.
  all: repeat first [ check_step | index_step ].
  all: try (eexists; reflexivity).
  all: exfalso.
  all: match goal with
       | E : wait_result ?fs ?f _ <> VK_SUCCESS |- _ =>
           apply E; unfold wait_result;
           destruct (fs !! f) as [[]|]; try congruence; try reflexivity; apply Hres
       | E : result (reply _) <> VK_SUCCESS |- _ =>
           apply E; unfold reply;
           repeat first [ rewrite oracle_emit | rewrite oracle_call_in_order ]; apply Hres
       | E : _ !! _ = None |- _ =>
           apply lookup_ge_None in E; revert E; unfold reply;
           repeat first [ rewrite oracle_emit | rewrite oracle_call_in_order ];
           intros E;
           match type of E with
           | (_ <= N.to_nat (imageIndex (oracle _ ?n)))%nat => specialize (Hidx n); lia
           end
       end.
Qed.

(** With the slot's fence signaled, the wait that opens [draw] returns
    success whatever the driver would answer. *)
Lemma draw_wait_signaled (p : Process) :
  let e := engine p in
  let fence := _renderFence (get_current_frame e) in
  fences (world p) !! fence = Some Signaled ->
  exists o p' rest,
    draw p = (o, p')
    /\ calls_since p p' = vkWaitForFences (_device e) fence true 1000000000 VK_SUCCESS :: rest.
Proof.
  cbv zeta. destruct (draw p) as [o p'] eqn:Hdraw. intros Hsig. exists o, p'.
  revert Hdraw Hsig. open_process p. unfold draw. engine_eval.
  destruct (Z.to_nat ((frameNo mod 2 ^ 32) mod Z.of_nat 2)) as [|i'] eqn:Hslot; slot_eval.
  all: check_step;
    [ repeat first [ check_step | index_step ];
      intros H Hsig; injection H as <- <-; eexists; (split; [reflexivity|log_goal])
    | intros _ Hsig; exfalso; apply E; unfold wait_result; rewrite Hsig; reflexivity ].
Qed.

(** C10.  [init] creates both render fences with
    [VK_FENCE_CREATE_SIGNALED_BIT], so both are signaled when it returns,
    and it submits nothing.  On a newly constructed engine the first
    [draw] therefore finds slot 0's fence signaled and its wait returns
    success at once, whatever the driver would answer; and when that
    frame completes, the second [draw] finds slot 1's fence still
    signaled (the only submission so far was tied to slot 0's fence) and
    its wait returns success at once as well. *)
Theorem first_waits_return_at_once (self : N) (p p1 : Process) :
  default_constructed (engine p) ->
  init self p = (Ok tt, p1) ->
  let e := engine p1 in
  let fence0 := _renderFence (frame_at (_frames e) 0) in
  let fence1 := _renderFence (frame_at (_frames e) 1) in
  vkCreateFence (_device e) VK_FENCE_CREATE_SIGNALED_BIT fence0 VK_SUCCESS ∈ calls (world p1)
  /\ vkCreateFence (_device e) VK_FENCE_CREATE_SIGNALED_BIT fence1 VK_SUCCESS ∈ calls (world p1)
  /\ fences (world p1) !! fence0 = Some Signaled
  /\ fences (world p1) !! fence1 = Some Signaled
  /\ (forall queue submit fence r, vkQueueSubmit2 queue submit fence r ∉ calls_since p p1)
  /\ (exists o p2 rest,
        draw p1 = (o, p2)
        /\ calls_since p1 p2
           = vkWaitForFences (_device e) fence0 true 1000000000 VK_SUCCESS :: rest)
  /\ (forall p2,
        draw p1 = (Ok tt, p2) ->
        (forall queue submit r, vkQueueSubmit2 queue submit fence1 r ∉ calls_since p1 p2)
        /\ exists o p3 rest,
             draw p2 = (o, p3)
             /\ calls_since p2 p3
                = vkWaitForFences (_device e) fence1 true 1000000000 VK_SUCCESS :: rest).
Proof.
  intros Hnew Hinit. cbv zeta.
  destruct Hnew as (_ & Hframe & _ & _ & _ & Hq0 & _ & _).
  destruct (init_Ok self p p1 Hinit)
    as (_ & _ & _ & Hframe1 & _ & Hq0' & _ & Hne & Hsig0 & Hsig1 & Hmade0 & Hmade1 & Hsub).
  rewrite Hframe in Hframe1. rewrite <- Hq0' in Hq0. clear Hq0' Hframe Hinit.
  assert (current_index (engine p1) = 0%nat) as Hslot
    by (unfold current_index; rewrite Hframe1; reflexivity).
  do 5 (split; [assumption|]). split.
  - pose proof (draw_wait_signaled p1) as H. cbv zeta in H.
    unfold get_current_frame in H. rewrite Hslot in H. exact (H Hsig0).
  - intros p2 Hdraw.
    destruct (draw_Ok p1 p2 Hdraw) as (i & img & _ & Hworld & Hengine & _).
    assert (current_index (engine p2) = 1%nat) as Hslot2.
    { rewrite Hengine. unfold current_index, frame_done. cbn [_frameNumber with_frameNumber].
      rewrite Hframe1. reflexivity. }
    assert (_frames (engine p2)
            = set_frame_at 0 (with_deletionQueue {| deletors := [] |}
                                (frame_at (_frames (engine p1)) 0)) (_frames (engine p1)))
      as Hframes.
    { rewrite Hengine. unfold frame_done, get_current_frame. rewrite Hslot. reflexivity. }
    assert (_device (engine p2) = _device (engine p1)) as Hdev
      by (rewrite Hengine; reflexivity).
    revert Hworld. unfold frame_prologue, frame_recording, frame_submission, get_current_frame.
    rewrite Hslot, Hq0. cbn [rev concat app]. intros Hworld.
    split.
    + intros q s r Hin.
      erewrite calls_since_app in Hin by (rewrite Hworld; apply calls_invoke_deletor).
      repeat (apply elem_of_cons in Hin; destruct Hin as [Hin|Hin];
              [try discriminate Hin|]).
      * injection Hin as _ _ Hfence. apply Hne. symmetry. exact Hfence.
      * apply elem_of_nil in Hin. exact Hin.
    + pose proof (draw_wait_signaled p2) as H. cbv zeta in H.
      unfold get_current_frame in H. rewrite Hslot2, Hframes, Hdev in H.
      cbn [frame_at set_frame_at snd] in H. apply H.
      rewrite Hworld. cbn [invoke_deletor fold_left]. rewrite !fences_emit.
      cbn [fence_effect]. change (VK_SUCCESS =? VK_SUCCESS) with true. cbv iota.
      rewrite !lookup_insert_ne by exact Hne. exact Hsig1.
Qed.

Lemma first_waits_return_at_once_witness :
  default_constructed (engine boot)
  /\ init 1%N boot = (Ok tt, ready)
  /\ fences (world ready) !! 24%N = Some Signaled
  /\ fences (world ready) !! 27%N = Some Signaled
  /\ (exists o p2 rest,
        draw ready = (o, p2)
        /\ calls_since ready p2 = vkWaitForFences 6 24 true 1000000000 VK_SUCCESS :: rest)
  /\ (exists o p3 rest,
        draw (state_after draw ready) = (o, p3)
        /\ calls_since (state_after draw ready) p3
           = vkWaitForFences 6 27 true 1000000000 VK_SUCCESS :: rest).
Proof.
  assert (default_constructed (engine boot)) as Hnew by (repeat split).
  assert (draw ready = (Ok tt, state_after draw ready)) as Hdraw by (vm_compute; reflexivity).
  destruct (first_waits_return_at_once 1%N boot ready Hnew init_boot)
    as (_ & _ & H0 & H1 & _ & Hfirst & Hsecond).
  destruct (Hsecond (state_after draw ready) Hdraw) as (_ & Hwait).
  split; [exact Hnew|]. split; [exact init_boot|].
  split; [exact H0|]. split; [exact H1|]. split; [exact Hfirst|]. exact Hwait.
Defined.

(** ** run *)






Lemma run_iteration_unfold (bQuit : bool) (p : Process) :
  run_iteration bQuit p
  = let '(quit, p1) := poll_events (events (world p)) bQuit p in
    if stop_rendering (engine p1)
    then (Ok quit, with_world (emit (sleep_for_milliseconds 100) (world p1)) p1)
    else (draw >> ret quit) p1.
Proof.
  unfold run_iteration. unfold bind at 1.
  destruct (poll_events (events (world p)) bQuit p) as [quit p1].
  unfold bind at 1. unfold this at 1.
  destruct (stop_rendering (engine p1)); reflexivity.
Qed.



Lemma poll_events_window_stands (pending : list (option SDL_Event)) (bQuit : bool)
    (p : Process) :
  existsb changes_window (batch pending) = false ->
  stop_rendering (engine (snd (poll_events pending bQuit p))) = stop_rendering (engine p).
Proof.
  revert bQuit p. induction pending as [|[e|] later IH]; intros bQuit p; [reflexivity| |reflexivity].
  cbn [poll_events batch existsb]. intros H. apply orb_false_iff in H as [He Hlater].
  destruct (handle_event e bQuit p) as [b' p'] eqn:Hhandle.
  rewrite (IH b' p' Hlater).
  destruct e as [|[| |]|[| |]|]; cbn in Hhandle; injection Hhandle as <- <-;
    try discriminate He; reflexivity.
Qed.







(** Minimized for three turns, then restored: three sleeps (and the
    greeting of the space key), then a whole frame in the fourth turn. *)
Example run_minimized_then_restored :
  fst (run 4 minimized_then_restored) = Ok false
  /\ calls_since minimized_then_restored (state_after (run 4) minimized_then_restored)
     = [sleep_for_milliseconds 100;
        sleep_for_milliseconds 100;
        fmt_print "Whas good!"; sleep_for_milliseconds 100]
       ++ calls_since ready (state_after draw ready)
  /\ _frameNumber (engine (state_after (run 3) minimized_then_restored)) = 0
  /\ _frameNumber (engine (state_after (run 4) minimized_then_restored)) = 1.
Proof. vm_compute. repeat split. Qed.

(** * Further properties *)

(** ** DeletionQueue, used again *)

(** X1.  The deletor pushed last runs first and the rest follows as a flush
    of the queue before the push would run it; and a queue that has been
    flushed starts over: what is pushed afterwards is all that the next
    flush runs, whatever was in the queue before. *)
Theorem DeletionQueue_last_in_first_out {F W : Type} (invoke : F -> W -> W)
    (q : DeletionQueue F) (f : F) (gs : list F) (w w' : W) :
  flush invoke (push_function f q) w
  = (fst (flush invoke q (invoke f w)), {| deletors := [] |})
  /\ flush invoke
       (fold_left (fun q g => push_function g q) gs (snd (flush invoke (push_function f q) w)))
       w'
     = (call_in_order invoke (rev gs) w', {| deletors := [] |}).
Proof.
  split.
  - unfold flush, push_function. cbn [deletors fst]. rewrite rev_app_distr. reflexivity.
  - rewrite flush_pushed. cbn [flush snd deletors rev]. rewrite app_nil_r. reflexivity.
Qed.

(** ** init, step by step *)

(** Splits on the next check or swapchain handle list of [init]. *)
Ltac init_step :=
  match goal with
  | |- context [if (?r =? VK_SUCCESS) then _ else _] =>
      let E := fresh "E" in destruct (r =? VK_SUCCESS) eqn:E; world_eval
  | |- context [fresh_list ?n ?P] =>
      let hs := fresh "handles" in
      let Hrun := fresh "Hrun" in
      let Hlen := fresh "Hlen" in
      destruct (fresh_list_runs n P) as (hs & Hrun & Hlen);
      rewrite Hrun; clear Hrun; world_eval
  end.

(** Uses the outcome of the checks met so far. *)
Ltac checks_met :=
  repeat match goal with
         | E : (?r =? VK_SUCCESS) = _ |- context [?r =? VK_SUCCESS] => rewrite E
         end.

(** Every run of [init] that passes the assertion, whatever its outcome. *)
Lemma init_runs (self : N) (p p' : Process) (o : Outcome unit) :
  loadedEngine p = None ->
  init self p = (o, p') ->
  loadedEngine p' = Some self
  /\ (exists window rest,
         calls_since p p'
         = SDL_Init
           :: SDL_CreateWindow "Vulkan Engine" (width (_windowExtent (engine p)))
                (height (_windowExtent (engine p))) window
           :: rest)
  /\ match o with
     | Ok _ =>
         _isInitialized (engine p') = true
         /\ length (calls_since p p') = 24%nat
         /\ Forall (fun c => verdict c <> Some false) (calls_since p p')
     | Abort =>
         _isInitialized (engine p') = _isInitialized (engine p)
         /\ exists pre c, calls_since p p' = pre ++ [c]
                          /\ verdict c = Some false
                          /\ Forall (fun c => verdict c <> Some false) pre
     | Undefined => False
     end.
Proof.
  intros Hnull. revert o p'. open_process p. open_world w. cbn in Hnull. subst loaded.
  unfold init, init_vulkan, init_swapchain, create_swapchain, init_commands,
    init_sync_structures.
  world_eval. repeat init_step.
  all: intros o p' H; injection H as <- <-; cbv zeta iota.
  all: erewrite calls_since_app
    by (cbv [world calls]; rewrite <- ?app_assoc; cbn [app]; reflexivity).
  all: cbv [engine _isInitialized loadedEngine _windowExtent].
  all: split; [reflexivity|].
  all: split; [eexists _, _; reflexivity|].
  all: split; [reflexivity|].
  all: try (split; [reflexivity|]).
  all: try match goal with
           | |- exists pre c, ?L = _ /\ _ =>
               exists (List.removelast L), (List.last L SDL_Init);
               cbn [List.removelast List.last]; split; [reflexivity|];
               split; [cbn [verdict]; checks_met; reflexivity|]
           end.
  all: repeat (constructor; [cbn [verdict]; checks_met; discriminate|]).
  all: constructor.
Qed.

(** X2.  With the global engine pointer null, [init] stops at the first
    of its checked calls that fails (a vk-bootstrap result without a
    value, a [VK_CHECK]ed Vulkan call with a result other than success):
    when it aborts, that call is the last one made, no checked call before
    it had failed, and [_isInitialized] has not been set.  It returns only
    after all twenty-four calls, with every checked one passed, and then
    [_isInitialized] is set.  It never reads out of bounds.  The outcomes
    of the calls that [init] does not check ([SDL_Init],
    [SDL_CreateWindow], [SDL_Vulkan_CreateSurface], [vmaCreateAllocator],
    [vmaCreateImage]) play no part. *)
Theorem init_stops_at_first_failure (self : N) (p p' : Process) (o : Outcome unit) :
  loadedEngine p = None ->
  init self p = (o, p') ->
  let log := calls_since p p' in
  match o with
  | Ok _ =>
      _isInitialized (engine p') = true
      /\ length log = 24%nat
      /\ Forall (fun c => verdict c <> Some false) log
  | Abort =>
      _isInitialized (engine p') = _isInitialized (engine p)
      /\ exists pre c, log = pre ++ [c]
                       /\ verdict c = Some false
                       /\ Forall (fun c => verdict c <> Some false) pre
  | Undefined => False
  end.
Proof.
  intros Hnull Hinit. cbv zeta.
  destruct (init_runs self p p' o Hnull Hinit) as (_ & _ & H). exact H.
Qed.

Lemma init_stops_at_first_failure_witness :
  loadedEngine boot = None
  /\ init 1%N boot = (Ok tt, ready)
  /\ _isInitialized (engine ready) = true
  /\ length (calls_since boot ready) = 24%nat
  /\ Forall (fun c => verdict c <> Some false) (calls_since boot ready).
Proof.
  split; [reflexivity|]. split; [exact init_boot|].
  exact (init_stops_at_first_failure 1%N boot ready (Ok tt) eq_refl init_boot).
Defined.

(** [cleanup] cannot fail and always clears the global pointer. *)
Lemma cleanup_runs (p : Process) :
  exists p', cleanup p = (Ok tt, p') /\ loadedEngine p' = None.
Proof.
  destruct (_isInitialized (engine p)) eqn:Hinit.
  - revert Hinit. open_process p. cbn. intros ->. unfold cleanup.
    engine_eval. rewrite destroy_swapchain_runs. engine_eval.
    eexists. split; reflexivity.
  - exists (with_loadedEngine None p). split; [|reflexivity].
    apply cleanup_not_initialized. exact Hinit.
Qed.

(** X3.  [Get] is defined from a completed [init] to the next [cleanup],
    and only then: before [init] the global pointer is null and [Get]
    dereferences it; after [init] on an engine [Get] returns that engine;
    [cleanup] completes and clears the pointer, so [Get] dereferences null
    again, and from then on [init] no longer fails its assertion: it
    starts over with [SDL_Init] and a new window. *)
Theorem Get_defined_from_init_to_cleanup (self : N) (p p1 : Process) :
  init self p = (Ok tt, p1) ->
  Get p = (Undefined, p)
  /\ Get p1 = (Ok self, p1)
  /\ exists p2,
       cleanup p1 = (Ok tt, p2)
       /\ Get p2 = (Undefined, p2)
       /\ forall other o p3,
            init other p2 = (o, p3) ->
            exists window rest,
              calls_since p2 p3
              = SDL_Init
                :: SDL_CreateWindow "Vulkan Engine" (width (_windowExtent (engine p2)))
                     (height (_windowExtent (engine p2))) window
                :: rest.
Proof.
  intros Hinit. destruct (init_Ok self p p1 Hinit) as (Hnull & Hloaded & _).
  split; [unfold Get; rewrite Hnull; reflexivity|].
  split; [unfold Get; rewrite Hloaded; reflexivity|].
  destruct (cleanup_runs p1) as (p2 & Hclean & Hcleared).
  exists p2. split; [exact Hclean|]. split; [unfold Get; rewrite Hcleared; reflexivity|].
  intros other o p3 Hagain.
  destruct (init_runs other p2 p3 o Hcleared Hagain) as (_ & Hlog & _). exact Hlog.
Qed.

Lemma Get_defined_from_init_to_cleanup_witness :
  init 1%N boot = (Ok tt, ready)
  /\ Get boot = (Undefined, boot)
  /\ Get ready = (Ok 1%N, ready)
  /\ exists p2, cleanup ready = (Ok tt, p2) /\ Get p2 = (Undefined, p2).
Proof.
  destruct (Get_defined_from_init_to_cleanup 1%N boot ready init_boot)
    as (Hbefore & Hbetween & p2 & Hclean & Hafter & _).
  split; [exact init_boot|]. split; [exact Hbefore|]. split; [exact Hbetween|].
  exists p2. split; [exact Hclean | exact Hafter].
Defined.

(** ** From init to cleanup *)

(** X4.  The whole life of an engine that is initialized and then cleaned
    up with no frame in between: [init] on a newly constructed engine
    makes these twenty-four calls, and [cleanup] then waits for the device
    and destroys every object they created and the engine owns, each once:
    per slot the command pool (and with it the command buffer), the fence
    and both semaphores; the draw image's view and the draw image, then
    the allocator they came from; the swapchain and each of its image
    views; surface, device, debug messenger, instance and window. *)
Theorem init_then_cleanup_destroys_what_init_created (self : N) (p p1 : Process) :
  default_constructed (engine p) ->
  init self p = (Ok tt, p1) ->
  exists window instance messenger surface gpu device queue family allocator
         swapchain extent images views img alloc view
         pool0 cmd0 pool1 cmd1 fence0 acquired0 rendered0 fence1 acquired1 rendered1,
    calls_since p p1
    = [SDL_Init;
       SDL_CreateWindow "Vulkan Engine" 1700 900 window;
       vkb_InstanceBuilder_build true instance messenger true;
       SDL_Vulkan_CreateSurface window instance surface;
       vkb_PhysicalDeviceSelector_select surface gpu true;
       vkb_DeviceBuilder_build gpu device true;
       vkb_get_queue device queue true;
       vkb_get_queue_index device family true;
       vmaCreateAllocator gpu device instance VMA_ALLOCATOR_CREATE_BUFFER_DEVICE_ADDRESS_BIT
         allocator;
       vkb_SwapchainBuilder_build gpu device surface VK_FORMAT_B8G8R8A8_UNORM
         VK_COLOR_SPACE_SRGB_NONLINEAR_KHR VK_PRESENT_MODE_FIFO_KHR
         {| width := 1700; height := 900 |} VK_IMAGE_USAGE_TRANSFER_DST_BIT
         swapchain extent true;
       vkb_Swapchain_get_images swapchain images true;
       vkb_Swapchain_get_image_views swapchain views true;
       vmaCreateImage allocator VK_FORMAT_R16G16B16A16_SFLOAT 27
         {| width3 := 1700; height3 := 900; depth3 := 1 |}
         VMA_MEMORY_USAGE_GPU_ONLY VK_MEMORY_PROPERTY_DEVICE_LOCAL_BIT img alloc;
       vkCreateImageView device VK_FORMAT_R16G16B16A16_SFLOAT img VK_IMAGE_ASPECT_COLOR_BIT
         view VK_SUCCESS;
       vkCreateCommandPool device (family, VK_COMMAND_POOL_CREATE_RESET_COMMAND_BUFFER_BIT)
         pool0 VK_SUCCESS;
       vkAllocateCommandBuffers device pool0 1 cmd0 VK_SUCCESS;
       vkCreateCommandPool device (family, VK_COMMAND_POOL_CREATE_RESET_COMMAND_BUFFER_BIT)
         pool1 VK_SUCCESS;
       vkAllocateCommandBuffers device pool1 1 cmd1 VK_SUCCESS;
       vkCreateFence device VK_FENCE_CREATE_SIGNALED_BIT fence0 VK_SUCCESS;
       vkCreateSemaphore device acquired0 VK_SUCCESS;
       vkCreateSemaphore device rendered0 VK_SUCCESS;
       vkCreateFence device VK_FENCE_CREATE_SIGNALED_BIT fence1 VK_SUCCESS;
       vkCreateSemaphore device acquired1 VK_SUCCESS;
       vkCreateSemaphore device rendered1 VK_SUCCESS]
    /\ exists p2,
         cleanup p1 = (Ok tt, p2)
         /\ calls_since p1 p2
            = [vkDeviceWaitIdle device;
               vkDestroyCommandPool device pool0; vkDestroyFence device fence0;
               vkDestroySemaphore device rendered0; vkDestroySemaphore device acquired0;
               vkDestroyCommandPool device pool1; vkDestroyFence device fence1;
               vkDestroySemaphore device rendered1; vkDestroySemaphore device acquired1;
               vkDestroyImageView device view; vmaDestroyImage allocator img alloc;
               vmaDestroyAllocator allocator;
               vkDestroySwapchainKHR device swapchain]
              ++ map (vkDestroyImageView device) views
              ++ [vkDestroySurfaceKHR instance surface;
                  vkDestroyDevice device;
                  vkb_destroy_debug_utils_messenger instance messenger;
                  vkDestroyInstance instance;
                  SDL_DestroyWindow window].
Proof.
  intros Hnew H. open_process p. open_world w.
  destruct Hnew as (_ & _ & _ & Hextent & _ & Hq0 & Hq1 & Hmain).
  destruct queue0 as [d0], queue1 as [d1], mainQ as [dm].
  cbn in Hextent, Hq0, Hq1, Hmain. subst windowExtent d0 d1 dm.
  unfold init, init_vulkan, init_swapchain, create_swapchain, init_commands,
    init_sync_structures in H.
  destruct loaded; [discriminate H|].
  world_eval in H.
  repeat first [ pass_check H; world_eval in H | pass_fresh_list H; world_eval in H ].
  results_granted H.
  injection H as <-.
  do 26 eexists. split.
  - apply calls_since_app. cbv [world calls]. rewrite <- ?app_assoc. cbn [app]. reflexivity.
  - unfold cleanup. engine_eval. rewrite destroy_swapchain_runs. engine_eval.
    eexists. split; [reflexivity|].
    apply calls_since_app. cbv [world]. read_log.
    cbn [push_function deletors app rev concat imageView image allocation
         with_imageView with_allocation with_image with_imageExtent with_imageFormat].
    reflexivity.
Qed.

Lemma init_then_cleanup_destroys_what_init_created_witness :
  default_constructed (engine boot)
  /\ init 1%N boot = (Ok tt, ready)
  /\ (exists p2, cleanup ready = (Ok tt, p2))
  /\ calls_since ready (state_after cleanup ready)
     = [vkDeviceWaitIdle 6;
        vkDestroyCommandPool 6 20; vkDestroyFence 6 24;
        vkDestroySemaphore 6 26; vkDestroySemaphore 6 25;
        vkDestroyCommandPool 6 22; vkDestroyFence 6 27;
        vkDestroySemaphore 6 29; vkDestroySemaphore 6 28;
        vkDestroyImageView 6 19; vmaDestroyImage 9 17 18; vmaDestroyAllocator 9;
        vkDestroySwapchainKHR 6 10;
        vkDestroyImageView 6 14; vkDestroyImageView 6 15; vkDestroyImageView 6 16;
        vkDestroySurfaceKHR 2 4; vkDestroyDevice 6;
        vkb_destroy_debug_utils_messenger 2 3; vkDestroyInstance 2; SDL_DestroyWindow 1].
Proof.
  assert (default_constructed (engine boot)) as Hnew by (repeat split).
  destruct (init_then_cleanup_destroys_what_init_created 1%N boot ready Hnew init_boot)
    as (window & instance & messenger & surface & gpu & device & queue & family & allocator
        & swapchain & extent & images & views & img & alloc & view & pool0 & cmd0 & pool1
        & cmd1 & fence0 & acquired0 & rendered0 & fence1 & acquired1 & rendered1
        & _ & p2 & Hrun & _).
  split; [exact Hnew|]. split; [exact init_boot|].
  split; [exists p2; exact Hrun|]. vm_compute. reflexivity.
Defined.

(** ** create_swapchain *)

(** X5.  [create_swapchain] sets the format member and then makes up to
    three vk-bootstrap calls, going on only while each has a value: the
    build for the engine's GPU, device and surface (format B8G8R8A8_UNORM
    in the sRGB colour space, FIFO presentation, the desired extent,
    transfer-destination usage), whose swapchain and extent are stored at
    once; then the query of the images, stored next; then the query of
    the image views.  So it aborts after the first call with the
    swapchain members as before, after the second with swapchain and
    extent already replaced but the old images and views, after the third
    with only the old views.  When all three have a value it stores the
    views too, and a [destroy_swapchain] that follows destroys exactly the
    new chain and then the new views, in order. *)
Theorem create_swapchain_then_destroy (w h : Z) (p p1 : Process) (o : Outcome unit) :
  let e := engine p in
  let e1 := engine p1 in
  create_swapchain w h p = (o, p1) ->
  _swapchainImageFormat e1 = VK_FORMAT_B8G8R8A8_UNORM
  /\ exists swapchain extent images views,
       let build :=
         vkb_SwapchainBuilder_build (_chosenGPU e) (_device e) (_surface e)
           VK_FORMAT_B8G8R8A8_UNORM VK_COLOR_SPACE_SRGB_NONLINEAR_KHR VK_PRESENT_MODE_FIFO_KHR
           {| width := w; height := h |} VK_IMAGE_USAGE_TRANSFER_DST_BIT swapchain extent in
       let get_images := vkb_Swapchain_get_images swapchain images in
       let get_image_views := vkb_Swapchain_get_image_views swapchain views in
       (o = Abort
        /\ calls_since p p1 = [build false]
        /\ _swapchain e1 = _swapchain e
        /\ _swapchainExtent e1 = _swapchainExtent e
        /\ _swapchainImages e1 = _swapchainImages e
        /\ _swapchainImageViews e1 = _swapchainImageViews e)
       \/ (o = Abort
           /\ calls_since p p1 = [build true; get_images false]
           /\ _swapchain e1 = swapchain
           /\ _swapchainExtent e1 = extent
           /\ _swapchainImages e1 = _swapchainImages e
           /\ _swapchainImageViews e1 = _swapchainImageViews e)
       \/ (o = Abort
           /\ calls_since p p1 = [build true; get_images true; get_image_views false]
           /\ _swapchain e1 = swapchain
           /\ _swapchainExtent e1 = extent
           /\ _swapchainImages e1 = images
           /\ _swapchainImageViews e1 = _swapchainImageViews e)
       \/ (o = Ok tt
           /\ calls_since p p1 = [build true; get_images true; get_image_views true]
           /\ _swapchain e1 = swapchain
           /\ _swapchainExtent e1 = extent
           /\ _swapchainImages e1 = images
           /\ _swapchainImageViews e1 = views
           /\ exists p2,
                destroy_swapchain p1 = (Ok tt, p2)
                /\ calls_since p1 p2
                   = vkDestroySwapchainKHR (_device e) swapchain
                     :: map (vkDestroyImageView (_device e)) views).
Proof.
  cbv zeta. revert o p1. open_process p. open_world w0. unfold create_swapchain.
  world_eval. repeat init_step.
  all: intros o p1 H; injection H as <- <-.
  all: erewrite calls_since_app
    by (cbv [world calls]; rewrite <- ?app_assoc; cbn [app]; reflexivity).
  all: split; [reflexivity|].
  - eexists _, _, _, _. do 3 right. do 6 (split; [reflexivity|]).
    rewrite destroy_swapchain_runs. eexists. split; [reflexivity|].
    apply calls_since_app. cbv [world with_world]. rewrite calls_invoke_deletor. reflexivity.
  - eexists _, _, _, _. do 2 right. left. repeat split.
  - eexists _, _, _, []. right. left. repeat split.
  - eexists _, _, [], []. left. repeat split.
Qed.

Lemma create_swapchain_then_destroy_witness :
  exists swapchain images views,
    calls_since ready (state_after (create_swapchain 800 600) ready)
    = [vkb_SwapchainBuilder_build 5 6 4 VK_FORMAT_B8G8R8A8_UNORM
         VK_COLOR_SPACE_SRGB_NONLINEAR_KHR VK_PRESENT_MODE_FIFO_KHR
         {| width := 800; height := 600 |} VK_IMAGE_USAGE_TRANSFER_DST_BIT
         swapchain {| width := 1700; height := 900 |} true;
       vkb_Swapchain_get_images swapchain images true;
       vkb_Swapchain_get_image_views swapchain views true]
    /\ _swapchainExtent (engine (state_after (create_swapchain 800 600) ready))
       = {| width := 1700; height := 900 |}
    /\ calls_since (state_after (create_swapchain 800 600) ready)
         (state_after (create_swapchain 800 600 >> destroy_swapchain) ready)
       = vkDestroySwapchainKHR 6 swapchain :: map (vkDestroyImageView 6) views.
Proof.
  assert (create_swapchain 800 600 ready
          = (Ok tt, state_after (create_swapchain 800 600) ready)) as Hrun
    by (vm_compute; reflexivity).
  destruct (create_swapchain_then_destroy 800 600 ready _ _ Hrun)
    as (_ & swapchain & extent & images & views & H).
  destruct H as [(H & _)|[(H & _)|[(H & _)|H]]]; try discriminate H.
  destruct H as (_ & Hlog & _ & _ & _ & _ & p2 & Hdestroy & Hlog2).
  exists swapchain, images, views. split; [|split].
  - rewrite Hlog. revert Hlog. vm_compute. intros Hlog. injection Hlog as _ <-. reflexivity.
  - vm_compute. reflexivity.
  - unfold state_after at 2. unfold bind. rewrite Hrun, Hdestroy. exact Hlog2.
Defined.

(** ** The slots take turns *)

Lemma current_index_lt (e : VulkanEngine) : (current_index e < FRAME_OVERLAP)%nat.
Proof.
  unfold current_index, FRAME_OVERLAP. change (Z.of_nat 2) with 2.
  pose proof (Z.mod_pos_bound (_frameNumber e mod 2 ^ 32) 2 eq_refl). lia.
Qed.

Lemma current_index_int_incr (n : Z) :
  Z.to_nat ((int_incr n mod 2 ^ 32) mod 2) = (1 - Z.to_nat ((n mod 2 ^ 32) mod 2))%nat.
Proof.
  unfold int_incr, INT_MAX. change (2 ^ 32) with 4294967296. change (2 ^ 31) with 2147483648.
  destruct (n + 1 <=? 2147483648 - 1); Z.div_mod_to_equations; lia.
Qed.

(** X6.  A completed [draw] hands the turn to the other slot, also when the
    frame counter wraps at [INT_MAX]; the handles of both slots stay as
    they were, so the frame after next is recorded into the same command
    buffer, under the same fence and semaphores, as this one. *)
Theorem draw_alternates_slots (p p' : Process) :
  draw p = (Ok tt, p') ->
  (current_index (engine p) < FRAME_OVERLAP)%nat
  /\ current_index (engine p') = (1 - current_index (engine p))%nat
  /\ (forall i,
        let f := frame_at (_frames (engine p)) i in
        let f' := frame_at (_frames (engine p')) i in
        _commandPool f' = _commandPool f
        /\ _mainCommandBuffer f' = _mainCommandBuffer f
        /\ _swapchainSemaphore f' = _swapchainSemaphore f
        /\ _renderSemaphore f' = _renderSemaphore f
        /\ _renderFence f' = _renderFence f)
  /\ (forall p'', draw p' = (Ok tt, p'') ->
                  current_index (engine p'') = current_index (engine p)).
Proof.
  intros H. destruct (draw_Ok p p' H) as (_ & _ & _ & _ & Hengine & _).
  pose proof (current_index_lt (engine p)) as Hlt. unfold FRAME_OVERLAP in Hlt.
  assert (forall e, current_index (frame_done e) = (1 - current_index e)%nat) as Hnext.
  { intros e. unfold current_index at 1. unfold frame_done.
    cbn [_frameNumber with_frameNumber]. apply current_index_int_incr. }
  split; [exact (current_index_lt _)|]. split; [rewrite Hengine; apply Hnext|]. split.
  - intros i. cbv zeta. rewrite Hengine. unfold frame_done, get_current_frame.
    cbn [_frames with_frameNumber with_drawExtent with_frames].
    destruct (current_index (engine p)) as [|[|k]], i as [|i], (_frames (engine p)) as [f0 f1];
      cbn; repeat split.
  - intros p'' H'. destruct (draw_Ok p' p'' H') as (_ & _ & _ & _ & Hengine' & _).
    rewrite Hengine', Hnext, Hengine, Hnext. lia.
Qed.

Lemma draw_alternates_slots_witness :
  draw busy = (Ok tt, state_after draw busy)
  /\ current_index (engine busy) = 0%nat
  /\ current_index (engine (state_after draw busy)) = 1%nat.
Proof.
  destruct (draw_alternates_slots busy (state_after draw busy) draw_busy) as (_ & Hnext & _).
  split; [exact draw_busy|]. split; [reflexivity|]. rewrite Hnext. reflexivity.
Defined.

(** ** The outcomes of draw *)

(** The last call of an explicit log, and the calls before it. *)
Ltac last_of L :=
  lazymatch L with
  | [?c] => c
  | _ :: ?m => last_of m
  | _ ++ ?m => last_of m
  end.

Ltac front_of L :=
  lazymatch L with
  | [_] => constr:(@nil Call)
  | ?a :: ?m => let r := front_of m in constr:(a :: r)
  | ?l ++ ?m => let r := front_of m in constr:(l ++ r)
  end.

Ltac draw_log :=
  erewrite calls_since_app by (cbv [world]; read_log; cbn [app]; reflexivity).

(** X7.  How [draw] can end.  It completes only when the index that the
    acquisition handed out lies inside the swapchain images; its calls
    are then those of one whole frame on that image, and the frame counter
    has moved on by one.  It aborts only right after a checked call of its
    own that reported something other than success, which is then the last
    call made, and the frame counter is as it was.  The acquired index is
    used unchecked: the one remaining case is that every check up to the
    recording passed and the index lies past the swapchain images, and
    then the command buffer has begun and the clear of the draw target is
    recorded when the out-of-bounds read happens; about what comes after
    that read nothing is stated. *)
Theorem draw_outcomes (p p' : Process) (o : Outcome unit) :
  let e := engine p in
  let cmd := _mainCommandBuffer (get_current_frame e) in
  let target := image (_drawImage e) in
  draw p = (o, p') ->
  match o with
  | Ok _ =>
      _frameNumber (engine p') = int_incr (_frameNumber e)
      /\ exists i img,
           _swapchainImages e !! N.to_nat i = Some img
           /\ calls_since p p' = frame_calls e i img
  | Abort =>
      _frameNumber (engine p') = _frameNumber e
      /\ exists pre r,
           r <> VK_SUCCESS
           /\ (calls_since p p'
               = pre ++ [vkWaitForFences (_device e) (_renderFence (get_current_frame e))
                           true 1000000000 r]
               \/ calls_since p p'
                  = pre ++ [vkResetFences (_device e) (_renderFence (get_current_frame e)) r]
               \/ (exists i,
                      calls_since p p'
                      = pre ++ [vkAcquireNextImageKHR (_device e) (_swapchain e) 1000000000
                                  (_swapchainSemaphore (get_current_frame e)) nullptr i r])
               \/ calls_since p p' = pre ++ [vkResetCommandBuffer cmd 0 r]
               \/ calls_since p p'
                  = pre ++ [vkBeginCommandBuffer cmd
                              VK_COMMAND_BUFFER_USAGE_ONE_TIME_SUBMIT_BIT r]
               \/ calls_since p p' = pre ++ [vkEndCommandBuffer cmd r]
               \/ (exists submit,
                      calls_since p p'
                      = pre ++ [vkQueueSubmit2 (_graphicsQueue e) submit
                                  (_renderFence (get_current_frame e)) r])
               \/ (exists present,
                      calls_since p p'
                      = pre ++ [vkQueuePresentKHR (_graphicsQueue e) present r]))
  | Undefined =>
      exists i,
        (length (_swapchainImages e) <= N.to_nat i)%nat
        /\ calls_since p p'
           = frame_prologue e i
             ++ [vkBeginCommandBuffer cmd VK_COMMAND_BUFFER_USAGE_ONE_TIME_SUBMIT_BIT
                   VK_SUCCESS;
                 transition_image cmd target VK_IMAGE_LAYOUT_UNDEFINED
                   VK_IMAGE_LAYOUT_GENERAL;
                 vkCmdClearColorImage cmd target VK_IMAGE_LAYOUT_GENERAL (_frameNumber e)
                   VK_IMAGE_ASPECT_COLOR_BIT;
                 transition_image cmd target VK_IMAGE_LAYOUT_GENERAL
                   VK_IMAGE_LAYOUT_TRANSFER_SRC_OPTIMAL]
  end.
Proof.
  cbv zeta. revert o p'. open_process p. unfold draw. engine_eval.
  destruct (Z.to_nat ((frameNo mod 2 ^ 32) mod Z.of_nat 2)) as [|i'] eqn:Hslot; slot_eval.
  all: intros o p'.
  all: repeat first [ check_step | index_step ].
  all: intros H; injection H as <- <-; cbv iota.
  all: draw_log.
  all: try (split; [reflexivity|]).
  all: try match goal with
           | E : _ !! _ = Some _ |- exists i img, _ !! _ = Some img /\ _ =>
               eexists _, _; split; [exact E|];
               unfold frame_calls, frame_prologue, frame_recording, frame_submission;
               slot_eval; cbn [app]; rewrite <- ?app_assoc; cbn [app]; reflexivity
           end.
  all: try match goal with
           | E : _ !! _ = None |- _ =>
               eexists; split; [apply lookup_ge_None; exact E|];
               unfold frame_prologue; slot_eval; cbn [app];
               rewrite <- ?app_assoc; cbn [app]; reflexivity
           end.
  all: match goal with
       | |- exists pre r, _ /\ (?L = _ \/ _) =>
           let c := last_of L in
           let f := front_of L in
           exists f;
           match c with
           | vkWaitForFences _ _ _ _ ?r => exists r; split; [assumption|]; left
           | vkResetFences _ _ ?r => exists r; split; [assumption|]; right; left
           | vkAcquireNextImageKHR _ _ _ _ _ _ ?r =>
               exists r; split; [assumption|]; do 2 right; left; eexists
           | vkResetCommandBuffer _ _ ?r => exists r; split; [assumption|]; do 3 right; left
           | vkBeginCommandBuffer _ _ ?r => exists r; split; [assumption|]; do 4 right; left
           | vkEndCommandBuffer _ ?r => exists r; split; [assumption|]; do 5 right; left
           | vkQueueSubmit2 _ _ _ ?r =>
               exists r; split; [assumption|]; do 6 right; left; eexists
           | vkQueuePresentKHR _ _ ?r => exists r; split; [assumption|]; do 7 right; eexists
           end;
           cbn [app]; rewrite <- ?app_assoc; cbn [app]; reflexivity
       end.
Qed.

Lemma draw_off_range : draw off_range = (Undefined, state_after draw off_range).
Proof. vm_compute. reflexivity. Qed.

Lemma draw_outcomes_witness :
  draw off_range = (Undefined, state_after draw off_range)
  /\ exists i,
       (3 <= N.to_nat i)%nat
       /\ calls_since off_range (state_after draw off_range)
          = [vkWaitForFences 6 24 true 1000000000 VK_SUCCESS;
             vkResetFences 6 24 VK_SUCCESS;
             vkAcquireNextImageKHR 6 10 1000000000 25 nullptr i VK_SUCCESS;
             vkResetCommandBuffer 21 0 VK_SUCCESS;
             vkBeginCommandBuffer 21 VK_COMMAND_BUFFER_USAGE_ONE_TIME_SUBMIT_BIT VK_SUCCESS;
             transition_image 21 17 VK_IMAGE_LAYOUT_UNDEFINED VK_IMAGE_LAYOUT_GENERAL;
             vkCmdClearColorImage 21 17 VK_IMAGE_LAYOUT_GENERAL 0 VK_IMAGE_ASPECT_COLOR_BIT;
             transition_image 21 17 VK_IMAGE_LAYOUT_GENERAL
               VK_IMAGE_LAYOUT_TRANSFER_SRC_OPTIMAL].
Proof.
  split; [exact draw_off_range|].
  exact (draw_outcomes off_range (state_after draw off_range) Undefined draw_off_range).
Defined.

Lemma events_emit (c : Call) (w : World) : events (emit c w) = events w.
Proof. reflexivity. Qed.

Lemma events_invoke_deletor (d : list Call) (w : World) :
  events (invoke_deletor d w) = events w.
Proof.
  unfold invoke_deletor. revert w. induction d as [|c d IH]; intros w; simpl; [reflexivity|].
  rewrite IH. reflexivity.
Qed.

(** X8.  Whatever its outcome, [draw] changes three things of the engine
    at most: the deletion queue of the current frame slot, which is either
    untouched (the fence wait failed) or empty, [_drawExtent] and
    [_frameNumber].  The device, the swapchain with its images and views,
    the draw image, the other slot, the handles of the current slot, the
    global deletion queue, [_isInitialized] and [stop_rendering] are as
    before, and so are the loaded engine pointer and the pending events. *)
Theorem draw_changes_only_slot_queue_extent_counter (p p' : Process) (o : Outcome unit) :
  let e := engine p in
  draw p = (o, p') ->
  (exists q extent n,
      engine p'
      = with_frameNumber n
          (with_drawExtent extent
             (with_frames
                (set_frame_at (current_index e)
                   (with_deletionQueue q (get_current_frame e)) (_frames e)) e))
      /\ (deletors q = [] \/ q = _deletionQueue (get_current_frame e)))
  /\ loadedEngine p' = loadedEngine p
  /\ events (world p') = events (world p).
Proof.
  cbv zeta. revert o p'. open_process p. open_world w. unfold draw. engine_eval.
  destruct (Z.to_nat ((frameNo mod 2 ^ 32) mod Z.of_nat 2)) as [|i'] eqn:Hslot; slot_eval.
  all: intros o p'.
  all: repeat first [ check_step | index_step ].
  all: intros H; injection H as <- <-.
  all: (split; [|split]).
  all: try (eexists _, _, _; split;
            [slot_eval; reflexivity | first [left; reflexivity | right; reflexivity]]).
  all: try reflexivity.
  all: cbv [world]; rewrite ?events_emit, ?call_in_order_concat, ?events_invoke_deletor,
    ?events_emit; reflexivity.
Qed.

Lemma draw_changes_only_slot_queue_extent_counter_witness :
  draw stale = (Abort, state_after draw stale)
  /\ (exists q extent n,
         engine (state_after draw stale)
         = with_frameNumber n
             (with_drawExtent extent
                (with_frames
                   (set_frame_at (current_index (engine stale))
                      (with_deletionQueue q (get_current_frame (engine stale)))
                      (_frames (engine stale))) (engine stale)))
         /\ (deletors q = [] \/ q = _deletionQueue (get_current_frame (engine stale))))
  /\ loadedEngine (state_after draw stale) = loadedEngine stale
  /\ events (world (state_after draw stale)) = events (world stale).
Proof.
  split; [exact draw_stale|].
  exact (draw_changes_only_slot_queue_extent_counter stale (state_after draw stale) Abort
           draw_stale).
Defined.

(** ** The loop at rest *)

Lemma draw_steady (p : Process) :
  steady p ->
  exists p' i img,
    draw p = (Ok tt, p')
    /\ steady p'
    /\ engine p' = frame_done (engine p)
    /\ _swapchainImages (engine p) !! N.to_nat i = Some img
    /\ calls (world p') = calls (world p) ++ frame_calls (engine p) i img
    /\ length (frame_calls (engine p) i img) = 14%nat.
Proof.
  intros (Hstop & Hev & Hq0 & Hq1 & Hne & Hf0 & Hf1 & Hres & Hidx).
  pose proof (current_index_lt (engine p)) as Hlt. unfold FRAME_OVERLAP in Hlt.
  assert (deletors (_deletionQueue (get_current_frame (engine p))) = []) as Hq.
  { unfold get_current_frame. destruct (current_index (engine p)) as [|[|]]; [assumption..|lia]. }
  destruct (draw_completes p Hres Hidx) as (p' & Hdraw).
  { unfold get_current_frame. destruct (current_index (engine p)) as [|[|]]; [assumption..|lia]. }
  destruct (draw_Ok p p' Hdraw) as (i & img & Himg & Hworld & Hengine & _).
  exists p', i, img. split; [exact Hdraw|].
  assert (length (frame_calls (engine p) i img) = 14%nat) as Hlen.
  { unfold frame_calls, frame_prologue, frame_recording, frame_submission.
    rewrite Hq. reflexivity. }
  split; [|split; [exact Hengine|split; [exact Himg|split; [|exact Hlen]]]].
  - revert Hworld. unfold frame_prologue, frame_recording, frame_submission.
    rewrite Hq. cbn [rev concat app]. intros Hworld.
    unfold steady. rewrite Hengine, Hworld. cbv zeta.
    rewrite oracle_invoke_deletor, events_invoke_deletor.
    cbn [invoke_deletor fold_left]. rewrite !fences_emit. cbn [fence_effect].
    change (VK_SUCCESS =? VK_SUCCESS) with true. cbv iota.
    unfold frame_done, get_current_frame.
    cbn [stop_rendering _frames _swapchainImages with_frameNumber with_drawExtent with_frames].
    destruct (_frames (engine p)) as [f0 f1] eqn:Hframes.
    cbn [frame_at fst snd] in Hq0, Hq1, Hne, Hf0, Hf1.
    split; [exact Hstop|]. split; [exact Hev|].
    destruct (current_index (engine p)) as [|[|]]; [| |lia].
    all: cbn [frame_at set_frame_at fst snd with_deletionQueue _deletionQueue _renderFence
                deletors].
    all: repeat split; try assumption.
    all: rewrite ?lookup_insert_eq, ?lookup_insert_ne by congruence.
    all: try assumption; try discriminate.
  - rewrite Hworld. unfold frame_calls. apply calls_invoke_deletor.
Qed.

Lemma run_loop_steady (turns : nat) (p : Process) :
  steady p ->
  exists p' acquired,
    run_loop turns false p = (Ok false, p')
    /\ steady p'
    /\ length acquired = turns
    /\ Forall (fun a => _swapchainImages (engine p) !! N.to_nat (fst a) = Some (snd a)) acquired
    /\ calls (world p') = calls (world p) ++ concat (frames_from (engine p) acquired)
    /\ Forall (fun frame => length frame = 14%nat) (frames_from (engine p) acquired)
    /\ _frameNumber (engine p') = Nat.iter turns int_incr (_frameNumber (engine p)).
Proof.
  revert p. induction turns as [|turns IH]; intros p Hsteady.
  - exists p, []. split; [reflexivity|]. split; [exact Hsteady|]. split; [reflexivity|].
    split; [constructor|]. split; [symmetry; apply app_nil_r|]. split; [constructor|reflexivity].
  - cbn [run_loop]. unfold bind at 1. rewrite run_iteration_unfold.
    pose proof Hsteady as (Hstop & Hev & _). rewrite Hev. cbn [poll_events].
    set (p0 := with_world (with_events [] (world p)) p).
    assert (steady p0) as Hsteady0.
    { destruct Hsteady as (? & ? & ? & ? & ? & ? & ? & ? & ?). repeat split; assumption. }
    change (stop_rendering (engine p0)) with (stop_rendering (engine p)). rewrite Hstop.
    destruct (draw_steady p0 Hsteady0)
      as (p1 & i & img & Hdraw & Hsteady1 & Hengine & Himg & Hlog & Hlen).
    unfold bind at 1. rewrite Hdraw. unfold ret.
    change (calls (world p0)) with (calls (world p)) in Hlog.
    change (engine p0) with (engine p) in Hengine, Himg, Hlog, Hlen.
    destruct (IH p1 Hsteady1)
      as (p' & later & Hrun & Hsteady' & Hturns & Himgs & Hlog' & Hlens & Hn).
    rewrite Hengine in Himgs, Hlog', Hlens, Hn.
    exists p', ((i, img) :: later). split; [exact Hrun|]. split; [exact Hsteady'|].
    split; [cbn [length]; congruence|]. split; [constructor; assumption|].
    split; [|split].
    + rewrite Hlog', Hlog. cbn [frames_from concat]. rewrite <- app_assoc. reflexivity.
    + cbn [frames_from]. constructor; assumption.
    + rewrite Hn. cbn [frame_done _frameNumber with_frameNumber].
      symmetry. apply Nat.iter_succ_r.
Qed.

Lemma iter_int_incr (turns : nat) (n : Z) :
  n + Z.of_nat turns <= INT_MAX -> Nat.iter turns int_incr n = n + Z.of_nat turns.
Proof.
  induction turns as [|turns IH]; intros H; simpl Nat.iter; [lia|].
  rewrite IH by lia. unfold int_incr. destruct (_ <=? _) eqn:E; [lia|].
  apply Z.leb_gt in E. lia.
Qed.

(** X9.  At rest the main loop renders one frame per turn and cannot fail.
    From a steady state, [turns] turns of [run] all complete and the log
    they add is, turn after turn, exactly the fourteen calls of a whole
    frame (fence wait, fence reset, acquisition, command buffer reset,
    the eight recording calls, submit, present) on an image of the
    swapchain, each frame starting from the engine as the frame before
    left it; the engine is steady again afterwards.  The frame counter has
    been incremented [turns] times, which below [INT_MAX] is [+ turns]. *)
Theorem run_steady_renders_every_turn (turns : nat) (p : Process) :
  steady p ->
  exists p' acquired,
    run turns p = (Ok false, p')
    /\ steady p'
    /\ length acquired = turns
    /\ Forall (fun a => _swapchainImages (engine p) !! N.to_nat (fst a) = Some (snd a)) acquired
    /\ calls_since p p' = concat (frames_from (engine p) acquired)
    /\ Forall (fun frame => length frame = 14%nat) (frames_from (engine p) acquired)
    /\ _frameNumber (engine p') = Nat.iter turns int_incr (_frameNumber (engine p))
    /\ (_frameNumber (engine p) + Z.of_nat turns <= INT_MAX ->
        _frameNumber (engine p') = _frameNumber (engine p) + Z.of_nat turns).
Proof.
  intros Hsteady.
  destruct (run_loop_steady turns p Hsteady)
    as (p' & acquired & Hrun & Hsteady' & Hturns & Himgs & Hlog & Hlens & Hn).
  exists p', acquired. split; [exact Hrun|]. split; [exact Hsteady'|].
  split; [exact Hturns|]. split; [exact Himgs|].
  split; [apply calls_since_app; exact Hlog|]. split; [exact Hlens|].
  split; [exact Hn|]. intros Hmax. rewrite Hn. apply iter_int_incr. exact Hmax.
Qed.

Lemma steady_ready : steady ready.
Proof.
  unfold steady. cbv zeta. split; [reflexivity|]. split; [reflexivity|].
  split; [reflexivity|]. split; [reflexivity|]. split; [discriminate|].
  split; [vm_compute; discriminate|]. split; [vm_compute; discriminate|].
  split; [intros n; reflexivity|]. intros n. vm_compute. lia.
Qed.

Lemma run_steady_renders_every_turn_witness :
  steady ready
  /\ exists p' acquired,
       run 3 ready = (Ok false, p')
       /\ steady p'
       /\ length acquired = 3%nat
       /\ calls_since ready p' = concat (frames_from (engine ready) acquired)
       /\ _frameNumber (engine p') = 3.
Proof.
  split; [exact steady_ready|].
  destruct (run_steady_renders_every_turn 3 ready steady_ready)
    as (p' & acquired & Hrun & Hsteady & Hturns & _ & Hlog & _ & _ & Hn).
  exists p', acquired. split; [exact Hrun|]. split; [exact Hsteady|].
  split; [exact Hturns|]. split; [exact Hlog|]. apply Hn. vm_compute. discriminate.
Defined.

(** ** The event loop *)

(** X10.  One pass of the event loop handles the pending events up to the
    first time the queue is found empty and leaves the others pending.
    [bQuit] comes out set exactly when it went in set or one of the
    handled events is [SDL_QUIT] or the Escape key (nothing ever clears
    it); the greeting is printed once per space key and nothing else is
    called; the frame counter stands; and [stop_rendering] stands unless a
    minimize or restore event is among the handled ones. *)
Theorem poll_events_handles_one_batch (pending : list (option SDL_Event)) (bQuit : bool)
    (p : Process) :
  let '(quit, p1) := poll_events pending bQuit p in
  quit = bQuit || existsb quits (batch pending)
  /\ events (world p1) = after_batch pending
  /\ calls (world p1)
     = calls (world p)
       ++ repeat (fmt_print "Whas good!") (length (List.filter greeted (batch pending)))
  /\ _frameNumber (engine p1) = _frameNumber (engine p)
  /\ (existsb changes_window (batch pending) = false ->
      stop_rendering (engine p1) = stop_rendering (engine p)).
Proof.
  revert bQuit p. induction pending as [|[e|] later IH]; intros bQuit p.
  - cbn. rewrite orb_false_r, app_nil_r. repeat split.
  - cbn [poll_events batch after_batch existsb List.filter].
    destruct (handle_event e bQuit p) as [b' p'] eqn:Hhandle.
    specialize (IH b' p'). destruct (poll_events later b' p') as [quit p1].
    destruct IH as (-> & -> & -> & -> & Hwindow).
    destruct e as [|[| |]|[| |]|]; cbn in Hhandle; injection Hhandle as <- <-.
    all: cbn [quits greeted changes_window orb length repeat].
    all: rewrite ?orb_true_r, ?orb_false_r.
    all: repeat split; try reflexivity.
    all: try (destruct bQuit; reflexivity).
    all: try (intros H; try discriminate H; exact (Hwindow H)).
    all: try (cbn [world with_world]; rewrite calls_emit, <- app_assoc; reflexivity).
  - cbn. rewrite orb_false_r, app_nil_r. repeat split.
Qed.

(** X11.  Within one pass of the event loop the last minimize or restore
    event decides: after the pass [stop_rendering] is set when that event
    is a minimize and clear when it is a restore, whatever it was before
    and whatever came earlier in the batch. *)
Theorem poll_events_last_window_event_decides (pending : list (option SDL_Event))
    (bQuit : bool) (p : Process) (before after : list SDL_Event) (ev : SDL_WindowEventID) :
  batch pending = before ++ SDL_WINDOWEVENT ev :: after ->
  changes_window (SDL_WINDOWEVENT ev) = true ->
  existsb changes_window after = false ->
  stop_rendering (engine (snd (poll_events pending bQuit p)))
  = match ev with SDL_WINDOWEVENT_MINIMIZED => true | _ => false end.
Proof.
  revert bQuit p before.
  induction pending as [|[e|] later IH]; intros bQuit p before Hbatch Hev Hafter.
  - destruct before; discriminate Hbatch.
  - cbn [batch] in Hbatch. cbn [poll_events].
    destruct (handle_event e bQuit p) as [b' p'] eqn:Hhandle.
    destruct before as [|e' before]; cbn [app] in Hbatch; injection Hbatch as -> Hlater.
    + rewrite poll_events_window_stands by (rewrite Hlater; exact Hafter).
      destruct ev; try discriminate Hev; cbn in Hhandle; injection Hhandle as <- <-;
        reflexivity.
    + exact (IH b' p' before Hlater Hev Hafter).
  - destruct before; discriminate Hbatch.
Qed.

Lemma poll_events_last_window_event_decides_witness :
  batch (events (world flickering))
  = [SDL_WINDOWEVENT SDL_WINDOWEVENT_RESTORED]
    ++ SDL_WINDOWEVENT SDL_WINDOWEVENT_MINIMIZED :: [SDL_KEYDOWN SDLK_OTHER]
  /\ stop_rendering (engine flickering) = false
  /\ stop_rendering
       (engine (snd (poll_events (events (world flickering)) false flickering))) = true.
Proof.
  split; [reflexivity|]. split; [reflexivity|].
  exact (poll_events_last_window_event_decides (events (world flickering)) false flickering
           [SDL_WINDOWEVENT SDL_WINDOWEVENT_RESTORED] [SDL_KEYDOWN SDLK_OTHER]
           SDL_WINDOWEVENT_MINIMIZED eq_refl eq_refl eq_refl).
Defined.

Lemma poll_events_quit (pending : list (option SDL_Event)) (bQuit : bool) (p : Process) :
  fst (poll_events pending bQuit p) = bQuit || existsb quits (batch pending).
Proof.
  revert bQuit p. induction pending as [|[e|] later IH]; intros bQuit p.
  - cbn. rewrite orb_false_r. reflexivity.
  - cbn [poll_events batch existsb].
    destruct (handle_event e bQuit p) as [b' p'] eqn:Hhandle. rewrite IH.
    destruct e as [|[| |]|[| |]|]; cbn in Hhandle; injection Hhandle as <- <-;
      cbn [quits orb]; rewrite ?orb_true_r; try reflexivity; destruct bQuit; reflexivity.
  - cbn. rewrite orb_false_r. reflexivity.
Qed.

(** X12.  A request to quit ([SDL_QUIT] or the Escape key) takes effect at
    the next test of the loop condition only: the turn that receives it
    still handles the rest of its batch and then renders a frame (or
    sleeps, when suspended), and if that goes well [run] returns without
    another turn, however many events are still pending. *)
Theorem run_quit_ends_after_the_turn (turns : nat) (p : Process) :
  existsb quits (batch (events (world p))) = true ->
  let p1 := snd (poll_events (events (world p)) false p) in
  run (S turns) p
  = if stop_rendering (engine p1)
    then (Ok true, with_world (emit (sleep_for_milliseconds 100) (world p1)) p1)
    else (draw >> ret true) p1.
Proof.
  intros Hquit. cbv zeta. unfold run. cbn [run_loop]. unfold bind at 1.
  rewrite run_iteration_unfold.
  pose proof (poll_events_quit (events (world p)) false p) as Hq.
  rewrite Hquit in Hq. cbn [orb] in Hq.
  destruct (poll_events (events (world p)) false p) as [quit p1]. cbn [fst] in Hq. subst quit.
  cbn [snd]. destruct (stop_rendering (engine p1)).
  - destruct turns; reflexivity.
  - unfold bind. destruct (draw p1) as [[[]| |] p2]; try reflexivity.
    unfold ret. destruct turns; reflexivity.
Qed.

Lemma run_quit_ends_after_the_turn_witness :
  existsb quits (batch (events (world closing))) = true
  /\ fst (run 5 closing) = Ok true
  /\ calls_since closing (state_after (run 5) closing)
     = fmt_print "Whas good!" :: calls_since ready (state_after draw ready)
  /\ events (world (state_after (run 5) closing)) = [Some (SDL_KEYDOWN SDLK_SPACE); None].
Proof.
  split; [reflexivity|].
  unfold state_after. rewrite (run_quit_ends_after_the_turn 4 closing eq_refl).
  vm_compute. repeat split.
Defined.
